(** * hermes_core.util.container: the ScienceData container

    A shallow embedding of [hermes_core/util/container.py] and the
    properties its specification states about it.

    The module wraps an astropy [TimeSeries]; the table library, the
    format handlers and the format validators are collaborators of the
    module.  The table library is modelled at the level the module uses it:
    an ordered collection of named column objects whose numeric payload
    lives in a store of array buffers, so that copies and aliases can be
    told apart.  Handlers and validators are parameters of the
    development. *)

From Stdlib Require Import ZArith String Ascii.
From stdpp Require Import base strings list gmap.

Local Open Scope string_scope.
Local Open Scope list_scope.

(** ** Python values, exceptions and outcomes *)

(** The exceptions the module raises itself, by class and message; an
    exception raised inside a collaborator and passing through the module
    unmodified is kept apart as [Foreign]. *)
Inductive exn :=
| ValueError (msg : string)
| TypeError (msg : string)
| KeyError (msg : string)
| Foreign (what : string).

Inductive outcome (A : Type) :=
| Return (a : A)
| Raise (e : exn).
Arguments Return {A} a.
Arguments Raise {A} e.

(** What a call into a collaborator gives back: a value, or an exception
    of the collaborator's own. *)
Definition foreign (A : Type) := (A + string)%type.

Definition propagate {A} (r : foreign A) : outcome A :=
  match r with
  | inl a => Return a
  | inr what => Raise (Foreign what)
  end.

(** A unit object of [astropy.units].  Unit objects define neither
    [__bool__] nor [__len__]: every one of them is truthy. *)
Inductive UnitBase := Unit (name : string).

(** Values found in a metadata mapping or in the result of [units]. *)
Inductive pyval :=
| PyNone
| PyStr (s : string)
| PyInt (z : Z)
| PyUnit (u : UnitBase).

Definition truthy (v : pyval) : bool :=
  match v with
  | PyNone => false
  | PyStr s => negb (String.eqb s EmptyString)
  | PyInt z => negb (Z.eqb z 0)
  | PyUnit _ => true
  end.

(** ** [os.path.splitext] (posixpath) *)

Module posixpath.

(** [p.rfind(c)]: the highest index of [c] in [p], or -1. *)
Fixpoint rfind_from (c : ascii) (p : string) (i last : Z) : Z :=
  match p with
  | EmptyString => last
  | String a p' => rfind_from c p' (i + 1) (if Ascii.eqb a c then i else last)
  end.

Definition rfind (p : string) (c : ascii) : Z := rfind_from c p 0 (-1).

(** The loop that skips the leading dots of the last path component:
    [true] when it meets a character other than the dot before
    [dotIndex] (the loop then returns the split), [false] when it runs
    out ([n] counts the iterations left). *)
Fixpoint meets_non_dot (p : string) (filenameIndex : nat) (n : nat) : bool :=
  match n with
  | O => false
  | S n' =>
      match String.get filenameIndex p with
      | Some a =>
          if Ascii.eqb a "."%char
          then meets_non_dot p (S filenameIndex) n'
          else true
      | None => true
      end
  end.

Definition splitext (p : string) : string * string :=
  let sepIndex := rfind p "/"%char in
  let dotIndex := rfind p "."%char in
  if (sepIndex <? dotIndex)%Z
     && meets_non_dot p (Z.to_nat (sepIndex + 1))
                      (Z.to_nat (dotIndex - (sepIndex + 1)))
  then (String.substring 0 (Z.to_nat dotIndex) p,
        String.substring (Z.to_nat dotIndex)
                         (String.length p - Z.to_nat dotIndex) p)
  else (p, EmptyString).

End posixpath.

(** ** The table library *)

(** The module sees a table as an ordered collection of columns under
    distinct names; it relies on the copy the [TimeSeries] constructor
    makes and on item assignment, which the table refuses for a column of
    another row count and for a "time" column that is no [Time].

    Array buffers live in a store; a column object refers to its buffer by
    position.  A buffer is allocated at the end of the store. *)
Abbreviation loc := nat (only parsing).
Abbreviation heap := (list (list Z)) (only parsing).

Definition deref (h : heap) (l : loc) : list Z := default [] (h !! l).

Definition alloc (b : list Z) (h : heap) : loc * heap := (List.length h, h ++ [b]).

(** The classes of object a table holds as a column: a [Time] array, a
    [Quantity] (which always has a unit), or a plain [Column] whose [unit]
    attribute may be [None]. *)
Inductive colclass :=
| AstroTime
| Quantity (unit : UnitBase)
| Column (unit : option UnitBase).

(** A column object: its class, its buffer, and its [meta] attribute when
    it has one. *)
Record colobj := mkcol {
  cls : colclass;
  buf : loc;
  meta : option (gmap string pyval)
}.

Abbreviation table := (list (string * colobj)) (only parsing).

(** [isinstance(c, u.Quantity)] *)
Definition is_Quantity (c : colobj) : bool :=
  match cls c with
  | Quantity _ => true
  | _ => false
  end.

(** [c.unit] when [hasattr(c, "unit")]; the attribute of a plain column may
    hold [None]. *)
Definition unit_attr (c : colobj) : option pyval :=
  match cls c with
  | AstroTime => None
  | Quantity u => Some (PyUnit u)
  | Column (Some u) => Some (PyUnit u)
  | Column None => Some PyNone
  end.

(** The physical unit a column carries, if any. *)
Definition unit_of (c : colobj) : option UnitBase :=
  match cls c with
  | AstroTime => None
  | Quantity u => Some u
  | Column o => o
  end.

(** [t[name]] *)
Fixpoint table_lookup (name : string) (t : table) : option colobj :=
  match t with
  | [] => None
  | (n, c) :: rest => if String.eqb n name then Some c else table_lookup name rest
  end.

(** [t.colnames], the keys of [t.columns] *)
Definition colnames (t : table) : list string := map fst t.

(** [name in t.columns] *)
Definition has_column (name : string) (t : table) : bool :=
  match table_lookup name t with
  | Some _ => true
  | None => false
  end.

(** [QTable] stores a plain column that has a unit as a [Quantity]. *)
Definition qtable_convert (k : colclass) : colclass :=
  match k with
  | Column (Some u) => Quantity u
  | other => other
  end.

(** The class a column has in a new [TimeSeries]: the column named "time"
    is its [Time] index, the others are stored as [QTable] stores them. *)
Definition stored_class (name : string) (k : colclass) : colclass :=
  if String.eqb name "time" then AstroTime else qtable_convert k.

(** A copy of a column object over a fresh buffer with the same content. *)
Definition copy_column (k : colclass) (c : colobj) (h : heap) : colobj * heap :=
  let '(l, h') := alloc (deref h (buf c)) h in
  ({| cls := k; buf := l; meta := meta c |}, h').

(** [TimeSeries(t, copy=True)]: a new table with the same column names in
    the same order, every column copied. *)
Fixpoint TimeSeries_copy (t : table) (h : heap) : table * heap :=
  match t with
  | [] => ([], h)
  | (name, c) :: rest =>
      let '(c', h1) := copy_column (stored_class name (cls c)) c h in
      let '(rest', h2) := TimeSeries_copy rest h1 in
      ((name, c') :: rest', h2)
  end.

(** Replacing the column called [name], wherever the table has it. *)
Fixpoint table_replace (name : string) (c : colobj) (t : table) : table :=
  match t with
  | [] => []
  | (n, old) :: rest =>
      if String.eqb n name then (n, c) :: rest
      else (n, old) :: table_replace name c rest
  end.

(** [isinstance(c, Time)] *)
Definition is_Time (c : colobj) : bool :=
  match cls c with
  | AstroTime => true
  | _ => false
  end.

(** [len(t)]: the rows of the first column, none for a table without
    columns. *)
Definition table_nrows (t : table) (h : heap) : nat :=
  match t with
  | [] => 0
  | (_, c) :: _ => List.length (deref h (buf c))
  end.

(** The rows the table takes for [t[name] = value], or its refusal.  A
    "time" column that is no [Time] is refused.  A value with the row
    count of the table is taken as it is, and so is any value by a table
    without columns or in place of its only column; a value of one row is
    repeated over the rows of a table that has some; a value of any other
    length is refused. *)
Definition rows_to_store (name : string) (value : colobj) (t : table) (h : heap)
  : foreign (list Z) :=
  let rows := deref h (buf value) in
  let n := table_nrows t h in
  if String.eqb name "time" && negb (is_Time value) then inr "ValueError"
  else if (List.length rows =? n)%nat then inl rows
  else if (List.length t =? 0)%nat || (has_column name t && (List.length t =? 1)%nat)
  then inl rows
  else match rows with
       | [x] => if (0 <? n)%nat then inl (replicate n x) else inr "ValueError"
       | _ => inr "ValueError"
       end.

(** The column of class [k] over a fresh buffer holding [rows] takes the
    place of the column called [name], or, when there is none, becomes the
    last column. *)
Definition table_store (name : string) (k : colclass) (m : option (gmap string pyval))
    (rows : list Z) (t : table) (h : heap) : table * heap :=
  let '(l, h') := alloc rows h in
  let c := {| cls := k; buf := l; meta := m |} in
  (if has_column name t then table_replace name c t else t ++ [(name, c)], h').

(** [t[name] = value]: the value is copied into the table, unless the table
    refuses it. *)
Definition table_setitem (name : string) (value : colobj) (t : table) (h : heap)
  : foreign (table * heap) :=
  match rows_to_store name value t h with
  | inl rows => inl (table_store name (cls value) (meta value) rows t h)
  | inr what => inr what
  end.

(** [c.meta = m] *)
Definition with_meta (m : gmap string pyval) (c : colobj) : colobj :=
  {| cls := cls c; buf := buf c; meta := Some m |}.

(** [t[name].meta = m], on the object [t[name]] gives. *)
Fixpoint table_set_meta (name : string) (m : gmap string pyval) (t : table) : table :=
  match t with
  | [] => []
  | (n, c) :: rest =>
      if String.eqb n name
      then (n, with_meta m c) :: rest
      else (n, c) :: table_set_meta name m rest
  end.

(** ** Collaborators *)

(** Modelled from the spec: the handler classes of [hermes_core.util.io],
    of which only the import is in the module: instances of
    [ScienceDataIOHandler], each with a [load_data] and a [save_data]
    operation. *)
Inductive IOHandler :=
| CDFHandler
| NetCDFHandler
| FITSHandler
| OtherHandler (class_name : string).

(** What a caller can pass as [handler]: [None], an instance of
    [ScienceDataIOHandler], or any other object. *)
Inductive pyhandler :=
| HNone
| HInstance (hd : IOHandler)
| HForeign.

(** Modelled from the spec: the validator classes of
    [hermes_core.util.validation], each with a [validate] operation that
    gives a list of issues. *)
Inductive FileValidator :=
| CDFValidator
| NetCDFValidator
| FITSValidator.

(** What a caller can pass as [data]: a [TimeSeries], a [Table] that is not
    a [TimeSeries], or any other object. *)
Inductive pydata :=
| PyTimeSeries (t : table)
| PyTable (t : table)
| PyOther.

(** ** The container *)

Record ScienceData := mkScienceData {
  data : table;
  _handler : option IOHandler
}.

(** A call of [handler.save_data(data=..., file_path=...)]. *)
Inductive event :=
| save_data_call (handler : IOHandler) (container : ScienceData) (file_path : string).

(** The [handler] setter. *)
Definition handler_setter (value : pyhandler) : outcome (option IOHandler) :=
  match value with
  | HNone => Return None
  | HInstance hd => Return (Some hd)
  | HForeign => Raise (ValueError "Handler must be an instance of ScienceDataIOHandler")
  end.

(** The metadata the constructor gives the column [name]: an empty mapping
    updated with the [meta] of the source's column when that has one. *)
Definition source_meta (src : table) (name : string) : gmap string pyval :=
  match table_lookup name src with
  | Some c =>
      match meta c with
      | Some m => m ∪ ∅
      | None => ∅
      end
  | None => ∅
  end.

(** Lines 92 to 106 of the constructor, on the copy [tbl] of [src]. *)
Definition init_columns (src : table) (handler : pyhandler) (tbl : table) (h : heap)
  : outcome ScienceData * heap :=
  match List.find (fun colname =>
                     negb (String.eqb colname "time")
                     && negb (match table_lookup colname tbl with
                              | Some c => is_Quantity c
                              | None => false
                              end)) (colnames tbl) with
  | Some colname =>
      (Raise (ValueError ("Column '" +:+ colname +:+ "' must be an astropy.Quantity object")), h)
  | None =>
      let tbl1 := table_set_meta "time" (source_meta src "time") tbl in
      let tbl2 := fold_left (fun t col =>
                               if negb (String.eqb col "time")
                               then table_set_meta col (source_meta src col) t
                               else t) (colnames tbl1) tbl1 in
      match handler_setter handler with
      | Return hd => (Return {| data := tbl2; _handler := hd |}, h)
      | Raise e => (Raise e, h)
      end
  end.

Definition __init__ (data : pydata) (handler : pyhandler) (h : heap)
  : outcome ScienceData * heap :=
  match data with
  | PyTimeSeries src =>
      if (List.length src <? 2)%nat
      then (Raise (ValueError "Science data must have at least 2 columns"), h)
      else if negb (has_column "time" src)
      then (Raise (ValueError "Science data must have a 'time' column"), h)
      else let '(tbl, h1) := TimeSeries_copy src h in
           init_columns src handler tbl h1
  | PyTable src =>
      if (List.length src <? 2)%nat
      then (Raise (ValueError "Science data must have at least 2 columns"), h)
      else if negb (has_column "time" src)
      then (Raise (ValueError "Science data must have a 'time' column"), h)
      else
        (* TimeSeries(data, time_column="time", copy=True): the constructor
           of the table library takes no such argument and raises *)
        (Raise (Foreign "TypeError"), h)
  | PyOther =>
      (Raise (ValueError "Invalid data type. Must be a TimeSeries or Table object."), h)
  end.

(** The unit [units] finds for one column. *)
Definition column_unit (var_data : colobj) : outcome pyval :=
  match unit_attr var_data with
  | Some unit => Return unit
  | None =>
      match meta var_data with
      | None => Raise (Foreign "AttributeError")
      | Some m =>
          match m !! "UNITS" with
          | Some v => if truthy v then Return v else Return PyNone
          | None => Return PyNone
          end
      end
  end.

Fixpoint units_loop (tbl : table) (names : list string) (units : gmap string pyval)
  : outcome (gmap string pyval) :=
  match names with
  | [] => Return units
  | name :: rest =>
      match table_lookup name tbl with
      | None => Raise (KeyError name)
      | Some var_data =>
          match column_unit var_data with
          | Return unit => units_loop tbl rest (<[name := unit]> units)
          | Raise e => Raise e
          end
      end
  end.

Definition units (self : ScienceData) : outcome (gmap string pyval) :=
  units_loop (data self) (colnames (data self)) ∅.

Definition columns (self : ScienceData) : list string := colnames (data self).

(** The [time] property; [None] stands for Python's [None]. *)
Definition time (self : ScienceData) : option colobj :=
  if has_column "time" (data self) then table_lookup "time" (data self) else None.

Definition shape (self : ScienceData) (h : heap) : nat * nat :=
  let nrows :=
    if has_column "time" (data self)
    then match table_lookup "time" (data self) with
         | Some t => List.length (deref h (buf t))
         | None => 0
         end
    else 0 in
  let ncols := List.length (colnames (data self)) in
  (nrows, ncols).

Definition __len__ (self : ScienceData) : nat := List.length (colnames (data self)).

Definition __getitem__ (self : ScienceData) (name : string) : outcome colobj :=
  if negb (bool_decide (name ∈ colnames (data self)))
  then Raise (KeyError ("CDFWriter does not contain data variable " +:+ name))
  else match table_lookup name (data self) with
       | Some var_data => Return var_data
       | None => Raise (KeyError name)
       end.

Definition __contains__ (self : ScienceData) (name : string) : bool :=
  has_column name (data self).

(** The guard of [_add_variable]. *)
Definition rejected (var_data : colobj) : bool :=
  negb (is_Quantity var_data)
  || negb (match unit_attr var_data with
           | Some unit => truthy unit
           | None => false
           end).

Definition _add_variable (self : ScienceData) (var_name : string) (var_data : colobj)
    (var_attrs : gmap string pyval) (h : heap)
  : outcome unit * (ScienceData * heap) :=
  if rejected var_data
  then (Raise (TypeError ("Column " +:+ var_name
          +:+ " must be type `astropy.units.Quantity` and have `unit` assigned.")),
        (self, h))
  else
    match table_setitem var_name var_data (data self) h with
    | inr what => (Raise (Foreign what), (self, h))
    | inl (tbl, h1) =>
        let tbl1 := table_set_meta var_name ∅ tbl in
        let tbl2 :=
          match meta var_data with
          | Some _ => table_set_meta var_name (var_attrs ∪ ∅) tbl1
          | None => tbl1
          end in
        (Return tt, ({| data := tbl2; _handler := _handler self |}, h1))
    end.

Definition __setitem__ (self : ScienceData) (name : string) (data : colobj) (h : heap)
  : outcome unit * (ScienceData * heap) :=
  _add_variable self name data ∅ h.

Section Collaborators.

(** [handler.load_data(filename)] *)
Variable load_data : IOHandler -> string -> heap -> foreign pydata * heap.

(** What [handler.save_data(data, file_path)] gives back. *)
Variable save_data : IOHandler -> ScienceData -> string -> foreign unit.

(** [validator.validate(filename)] *)
Variable validator_validate : FileValidator -> string -> foreign (list string).

(** [save] leaves a record of the call it delegates in the log. *)
Definition save (self : ScienceData) (output_path : string) (log : list event)
  : outcome unit * (ScienceData * list event) :=
  match _handler self with
  | None => (Raise (ValueError "No handler specified for saving data"), (self, log))
  | Some hd =>
      (propagate (save_data hd self output_path),
       (self, log ++ [save_data_call hd self output_path]))
  end.

Definition load (filename : string) (handler : pyhandler) (h : heap)
  : outcome ScienceData * heap :=
  match handler with
  | HInstance hd =>
      match load_data hd filename h with
      | (inl data, h1) => __init__ data handler h1
      | (inr what, h1) => (Raise (Foreign what), h1)
      end
  | _ => (Raise (ValueError "Handler must be an instance of ScienceDataIOHandler"), h)
  end.

Definition read (filename : string) (h : heap) : outcome ScienceData * heap :=
  let file_extension := snd (posixpath.splitext filename) in
  if String.eqb file_extension ".cdf" then load filename (HInstance CDFHandler) h
  else if String.eqb file_extension ".nc" then load filename (HInstance NetCDFHandler) h
  else if String.eqb file_extension ".fits" then load filename (HInstance FITSHandler) h
  else (Raise (ValueError ("Unsupported file type: " +:+ file_extension)), h).

Definition validate (filename : string) : outcome (list string) :=
  let file_extension := snd (posixpath.splitext filename) in
  if String.eqb file_extension ".cdf" then propagate (validator_validate CDFValidator filename)
  else if String.eqb file_extension ".nc" then propagate (validator_validate NetCDFValidator filename)
  else if String.eqb file_extension ".fits" then propagate (validator_validate FITSValidator filename)
  else Raise (ValueError ("Unsupported file type: " +:+ file_extension)).

End Collaborators.

(** ** Using a container, and its source, after construction *)

(** The public mutations of a container: item assignment and the [handler]
    setter.  An operation that raises leaves the container as it was. *)
Inductive operation :=
| set_item (name : string) (value : colobj)
| set_handler (value : pyhandler).

Definition step (st : ScienceData * heap) (op : operation) : ScienceData * heap :=
  match op with
  | set_item name value => snd (__setitem__ (fst st) name value (snd st))
  | set_handler value =>
      match handler_setter value with
      | Return hd => ({| data := data (fst st); _handler := hd |}, snd st)
      | Raise _ => st
      end
  end.

Definition run (ops : list operation) (st : ScienceData * heap) : ScienceData * heap :=
  fold_left step ops st.

(** What a caller can do to the table it built the container from: write
    an element of a column in place, assign a column (the table copies the
    value in, or refuses it and stays as it is), remove a column, or
    replace a column's metadata. *)
Inductive mutation :=
| write_element (name : string) (i : nat) (v : Z)
| assign_column (name : string) (value : colobj)
| remove_column (name : string)
| assign_meta (name : string) (m : gmap string pyval).

Definition mutate (st : table * heap) (mu : mutation) : table * heap :=
  let '(src, h) := st in
  match mu with
  | write_element name i v =>
      match table_lookup name src with
      | Some c => (src, <[buf c := <[i := v]> (deref h (buf c))]> h)
      | None => (src, h)
      end
  | assign_column name value =>
      match table_setitem name value src h with
      | inl st' => st'
      | inr _ => (src, h)
      end
  | remove_column name =>
      (List.filter (fun e => negb (String.eqb (fst e) name)) src, h)
  | assign_meta name m => (table_set_meta name m src, h)
  end.

Definition mutate_all (mus : list mutation) (st : table * heap) : table * heap :=
  fold_left mutate mus st.

(** ** The vocabulary of the specification *)

(** The character [c] does not occur in [s]. *)
Fixpoint lacks (c : ascii) (s : string) : bool :=
  match s with
  | EmptyString => true
  | String a s0 => negb (Ascii.eqb a c) && lacks c s0
  end.

(** The input is a table: a [TimeSeries] or a [Table]. *)
Definition table_input (d : pydata) (src : table) : Prop :=
  d = PyTimeSeries src \/ d = PyTable src.

(** A column carries a physical unit. *)
Definition carries_unit (c : colobj) : bool :=
  match unit_of c with
  | Some _ => true
  | None => false
  end.

(** A column named [name] that is not the time column and has no unit. *)
Definition lacks_unit (src : table) (name : string) : bool :=
  negb (String.eqb name "time")
  && negb (match table_lookup name src with
           | Some c => carries_unit c
           | None => false
           end).

(** A valid input table: two columns or more, a "time" column, a unit on
    every other column. *)
Definition valid_table (src : table) : bool :=
  (2 <=? List.length src)%nat
  && has_column "time" src
  && forallb (fun name => negb (lacks_unit src name)) (colnames src).

(** Every column of the table refers to a buffer of the store. *)
Definition table_allocated (t : table) (h : heap) : bool :=
  forallb (fun e => (buf (snd e) <? List.length h)%nat) t.

(** A unit-bearing quantity: a [Quantity], with its unit. *)
Definition unit_bearing (c : colobj) : bool := is_Quantity c && carries_unit c.

(** What holds of a container all along: it has a "time" column and two
    columns or more, its columns other than the time are quantities, and
    every column has a metadata mapping. *)
Definition invariant (self : ScienceData) : Prop :=
  has_column "time" (data self) = true
  /\ 2 <= List.length (data self)
  /\ forall n c,
      table_lookup n (data self) = Some c ->
      is_Some (meta c) /\ (n <> "time" -> is_Quantity c = true).

(** The buffers the columns of [t] refer to lie outside the window
    [[k0, k1)] of the store. *)
Definition outside (k0 k1 : nat) (t : table) : Prop :=
  Forall (fun e => buf (snd e) < k0 \/ k1 <= buf (snd e)) t.

(** The errors of the specification, as the module raises them. *)
Definition InvalidShape_columns : exn :=
  ValueError "Science data must have at least 2 columns".
Definition InvalidShape_time : exn :=
  ValueError "Science data must have a 'time' column".
Definition MissingUnit (colname : string) : exn :=
  ValueError ("Column '" +:+ colname +:+ "' must be an astropy.Quantity object").
Definition UnsupportedFormat (file_extension : string) : exn :=
  ValueError ("Unsupported file type: " +:+ file_extension).
Definition NoHandlerConfigured : exn :=
  ValueError "No handler specified for saving data".

(** The resolution of a column's unit as the specification words it: the
    unit attribute of the column, else the value of the "UNITS" field of
    its metadata, else null. *)
Definition unit_as_specified (c : colobj) : pyval :=
  match unit_attr c with
  | Some unit => unit
  | None =>
      match meta c ≫= (fun m => m !! "UNITS") with
      | Some v => v
      | None => PyNone
      end
  end.

(** The same with the guard of the code: the "UNITS" field counts when its
    value is truthy. *)
Definition unit_resolved (c : colobj) : pyval :=
  match unit_attr c with
  | Some unit => unit
  | None =>
      match meta c ≫= (fun m => m !! "UNITS") with
      | Some v => if truthy v then v else PyNone
      | None => PyNone
      end
  end.

(** ** Sample data *)

(** Eight samples of a flux in counts over eight time stamps. *)
Definition sample_store : heap :=
  [[0; 10; 20; 30; 40; 50; 60; 70]%Z; [3; 1; 4; 1; 5; 9; 2; 6]%Z].

Definition sample_series : table :=
  [("time", mkcol AstroTime 0 None);
   ("flux", mkcol (Quantity (Unit "counts")) 1 None)].

(** A series whose time column has a "UNITS" field holding an empty
    string. *)
Definition blank_units_series : table :=
  [("time", mkcol AstroTime 0 (Some {["UNITS" := PyStr EmptyString]}));
   ("flux", mkcol (Quantity (Unit "counts")) 1 None)].

(** One column only, and no time. *)
Definition lone_column : table :=
  [("flux", mkcol (Quantity (Unit "counts")) 1 None)].

(** Two columns, none of them the time. *)
Definition no_time_table : table :=
  [("flux", mkcol (Quantity (Unit "counts")) 1 None);
   ("energy", mkcol (Quantity (Unit "keV")) 0 None)].

(** A time column and a plain column without a unit. *)
Definition unitless_table : table :=
  [("time", mkcol AstroTime 0 None);
   ("flux", mkcol (Column None) 1 None)].

(** Collaborators that load the sample series and save without failing. *)
Definition sample_load_data (hd : IOHandler) (filename : string) (h : heap)
  : foreign pydata * heap :=
  (inl (PyTimeSeries sample_series), sample_store).

Definition sample_save_data (hd : IOHandler) (self : ScienceData) (file_path : string)
  : foreign unit := inl tt.

Definition sample_validate (v : FileValidator) (filename : string)
  : foreign (list string) :=
  match v with
  | CDFValidator => inl ["missing global attribute"]
  | _ => inl []
  end.

Definition a_loader_of (d : pydata) (hd : IOHandler) (filename : string) (h : heap)
  : foreign pydata * heap := (inl d, h).

(** ** The rest of the module *)

(** The pairs [__iter__] yields, in order; the column objects are the
    stored ones, not copies. *)
Fixpoint iter_loop (tbl : table) (names : list string) : list (string * colobj) :=
  match names with
  | [] => []
  | name :: rest =>
      match table_lookup name tbl with
      | Some var_data => (name, var_data) :: iter_loop tbl rest
      | None => []
      end
  end.

Definition __iter__ (self : ScienceData) : list (string * colobj) :=
  iter_loop (data self) (colnames (data self)).

(** ** The package entry point *)

Definition MISSION_NAME : string := "hermes".
Definition INST_NAMES : list string := ["eea"; "nemisis"; "merit"; "spani"; "sunsensor"].
Definition INST_SHORTNAMES : list string := ["eea"; "nms"; "mrt"; "spn"; "ss"].
Definition INST_TARGETNAMES : list string := ["EEA"; "MAG"; "MERIT"; "SPANI"; "SS"].

(** [dict(pairs)]: a later pair replaces an earlier one under the same
    key. *)
Definition dict {A} (pairs : list (string * A)) : gmap string A :=
  fold_left (fun d kv => <[fst kv := snd kv]> d) pairs ∅.

Definition INST_TO_SHORTNAME : gmap string string := dict (zip INST_NAMES INST_SHORTNAMES).
Definition INST_TO_TARGETNAME : gmap string string := dict (zip INST_NAMES INST_TARGETNAMES).

(** ** More vocabulary *)


(** A string of dots. *)
Fixpoint all_dots (s : string) : bool :=
  match s with
  | EmptyString => true
  | String a s0 => Ascii.eqb a "."%char && all_dots s0
  end.

(** The part of a path before its last component: nothing, or something
    that ends in a slash. *)
Definition directory_part (dir : string) : Prop :=
  dir = EmptyString \/ exists d, dir = d +:+ "/".

(** A series with a time column, a flux with metadata and an energy. *)
Definition annotated_series : table :=
  [("time", mkcol AstroTime 0 None);
   ("flux", mkcol (Quantity (Unit "counts")) 1 (Some {["CATDESC" := PyStr "flux"]}));
   ("energy", mkcol (Quantity (Unit "keV")) 1 None)].



(** * Properties *)

(** ** The store *)

Lemma deref_app_l (h ext : heap) (l : loc) :
  l < List.length h -> deref (h ++ ext) l = deref h l.
Proof. intros Hl. unfold deref. by rewrite lookup_app_l. Qed.

Lemma deref_alloc (h ext : heap) (b : list Z) :
  deref ((h ++ [b]) ++ ext) (List.length h) = b.
Proof.
  unfold deref. rewrite <- app_assoc. simpl.
  by rewrite list_lookup_middle.
Qed.

(** ** Tables *)

Lemma has_column_lookup (name : string) (t : table) :
  has_column name t = true <-> is_Some (table_lookup name t).
Proof.
  unfold has_column. destruct (table_lookup name t); split; intros H;
    try done; eauto; by destruct H.
Qed.

Lemma lookup_colnames (name : string) (t : table) :
  name ∈ colnames t <-> is_Some (table_lookup name t).
Proof.
  induction t as [|[n c] t IH]; simpl.
  - split; [intros H; inversion H | intros [? ?]; done].
  - destruct (String.eqb_spec n name) as [->|Hne].
    + split; [eauto | intros _; left].
    + rewrite <- IH. split.
      * intros H. inversion H; subst; [done | assumption].
      * intros H. by right.
Qed.

Lemma lookup_elem (name : string) (c : colobj) (t : table) :
  table_lookup name t = Some c -> (name, c) ∈ t.
Proof.
  induction t as [|[n c0] t IH]; simpl; [done|].
  destruct (String.eqb_spec n name) as [->|Hne].
  - intros [= ->]. left.
  - intros H. right. auto.
Qed.

Lemma lookup_set_meta (n name : string) (m : gmap string pyval) (t : table) :
  table_lookup n (table_set_meta name m t)
  = if String.eqb n name then with_meta m <$> table_lookup n t
    else table_lookup n t.
Proof.
  induction t as [|[n0 c] t IH]; simpl.
  - by destruct (String.eqb n name).
  - destruct (String.eqb_spec n0 name) as [->|Hne]; simpl.
    + destruct (String.eqb_spec name n) as [<-|Hn].
      * by rewrite String.eqb_refl.
      * destruct (String.eqb_spec n name); [congruence | done].
    + destruct (String.eqb_spec n0 n) as [->|Hn0].
      * destruct (String.eqb_spec n name); [congruence | done].
      * apply IH.
Qed.

Lemma colnames_set_meta (name : string) (m : gmap string pyval) (t : table) :
  colnames (table_set_meta name m t) = colnames t.
Proof.
  induction t as [|[n c] t IH]; simpl; [done|].
  destruct (String.eqb n name); simpl; [done | by rewrite IH].
Qed.

Lemma with_meta_twice (m : gmap string pyval) (c : colobj) :
  with_meta m (with_meta m c) = with_meta m c.
Proof. done. Qed.

Lemma lookup_replace (n name : string) (c : colobj) (t : table) :
  has_column name t = true ->
  table_lookup n (table_replace name c t)
  = if String.eqb n name then Some c else table_lookup n t.
Proof.
  unfold has_column. induction t as [|[n0 c0] t IH]; simpl; [done|].
  destruct (String.eqb_spec n0 name) as [->|Hne]; simpl.
  - intros _. destruct (String.eqb_spec name n) as [<-|Hn].
    + by rewrite String.eqb_refl.
    + destruct (String.eqb_spec n name); [congruence | done].
  - intros H. destruct (String.eqb_spec n0 n) as [->|Hn0].
    + destruct (String.eqb_spec n name); [congruence | done].
    + by apply IH.
Qed.

Lemma colnames_replace (name : string) (c : colobj) (t : table) :
  colnames (table_replace name c t) = colnames t.
Proof.
  induction t as [|[n c0] t IH]; simpl; [done|].
  destruct (String.eqb n name); simpl; [done | by rewrite IH].
Qed.

Lemma lookup_snoc (n name : string) (c : colobj) (t : table) :
  table_lookup n (t ++ [(name, c)])
  = match table_lookup n t with
    | Some x => Some x
    | None => if String.eqb n name then Some c else None
    end.
Proof.
  induction t as [|[n0 c0] t IH]; simpl.
  - by rewrite String.eqb_sym.
  - by destruct (String.eqb n0 n).
Qed.

(** ** The copy made by the constructor *)

(** The copy has the columns of the source under the same names, each over
    a buffer of its own allocated past the end of the old store, which it
    leaves as it was. *)
Lemma TimeSeries_copy_spec (t : table) :
  forall (h : heap) (t' : table) (h' : heap),
    TimeSeries_copy t h = (t', h') ->
    colnames t' = colnames t
    /\ (exists ext, h' = h ++ ext)
    /\ List.length h' = List.length h + List.length t
    /\ forall n,
        match table_lookup n t with
        | None => table_lookup n t' = None
        | Some c =>
            exists c', table_lookup n t' = Some c'
                       /\ cls c' = stored_class n (cls c)
                       /\ List.length h <= buf c' < List.length h'
                       /\ (buf c < List.length h -> deref h' (buf c') = deref h (buf c))
        end.
Proof.
  induction t as [|[name c] t IH]; intros h t' h' H; simpl in H.
  - inversion H; subst. repeat split; simpl; try lia.
    exists []. by rewrite app_nil_r.
  - unfold copy_column, alloc in H.
    destruct (TimeSeries_copy t (h ++ [deref h (buf c)])) as [rest' h2] eqn:E.
    inversion H; subst; clear H.
    apply IH in E as (Hn & [ext Hext] & Hlen & Hl).
    rewrite length_app in Hlen; simpl in Hlen.
    split; [simpl; by rewrite Hn|].
    split; [exists ([deref h (buf c)] ++ ext); by rewrite app_assoc|].
    split; [simpl; lia|].
    intros n. simpl. destruct (String.eqb_spec name n) as [->|Hne].
    + eexists; split; [reflexivity|]. simpl.
      split; [done|]. split; [lia|].
      intros _. subst h'. apply deref_alloc.
    + specialize (Hl n). destruct (table_lookup n t) as [c0|]; [|done].
      destruct Hl as (c' & Hc' & Hcls & Hb & Hd). rewrite length_app in Hb; simpl in Hb.
      exists c'. split; [done|]. split; [done|]. split; [lia|].
      intros Hlt. rewrite Hd by (rewrite length_app; lia).
      by apply deref_app_l.
Qed.

Lemma lookup_fold_meta (g : string -> gmap string pyval) (l : list string) :
  forall (t : table) (n : string),
    table_lookup n
      (fold_left (fun t col =>
                    if negb (String.eqb col "time")
                    then table_set_meta col (g col) t
                    else t) l t)
    = if bool_decide (n ∈ l) && negb (String.eqb n "time")
      then with_meta (g n) <$> table_lookup n t
      else table_lookup n t.
Proof.
  induction l as [|a l IH]; intros t n; cbn [fold_left].
  - rewrite bool_decide_eq_false_2; [done | by intros H; inversion H].
  - rewrite IH. clear IH.
    assert (Hstep : table_lookup n (if negb (String.eqb a "time")
                                    then table_set_meta a (g a) t else t)
                    = if String.eqb n a && negb (String.eqb n "time")
                      then with_meta (g n) <$> table_lookup n t
                      else table_lookup n t).
    { destruct (String.eqb_spec n a) as [->|Hna]; simpl.
      - destruct (String.eqb a "time"); simpl; [done|].
        by rewrite lookup_set_meta, String.eqb_refl.
      - destruct (String.eqb a "time"); simpl; [done|].
        rewrite lookup_set_meta. by destruct (String.eqb_spec n a). }
    rewrite Hstep. clear Hstep.
    destruct (String.eqb_spec n "time") as [->|Hnt]; simpl.
    { by rewrite !andb_false_r. }
    rewrite !andb_true_r.
    destruct (String.eqb_spec n a) as [->|Hna].
    + rewrite (bool_decide_eq_true_2 (a ∈ a :: l)) by left.
      destruct (bool_decide (a ∈ l)); [|done].
      destruct (table_lookup a t); done.
    + destruct (decide (n ∈ l)) as [Hin|Hnin].
      * rewrite (bool_decide_eq_true_2 (n ∈ l)) by done.
        rewrite (bool_decide_eq_true_2 (n ∈ a :: l)) by (by right).
        done.
      * rewrite (bool_decide_eq_false_2 (n ∈ l)) by done.
        rewrite (bool_decide_eq_false_2 (n ∈ a :: l)); [done|].
        intros H; inversion H; subst; done.
Qed.

(** What a construction that went through the unit check returns. *)
Lemma init_columns_Return (src : table) (handler : pyhandler) (tbl : table)
    (h : heap) (sd : ScienceData) (h1 : heap) :
  init_columns src handler tbl h = (Return sd, h1) ->
  h1 = h
  /\ handler_setter handler = Return (_handler sd)
  /\ colnames (data sd) = colnames tbl
  /\ (forall n, table_lookup n (data sd)
                = with_meta (source_meta src n) <$> table_lookup n tbl)
  /\ (forall n c, n <> "time" -> table_lookup n tbl = Some c -> is_Quantity c = true).
Proof.
  unfold init_columns.
  destruct (List.find _ (colnames tbl)) as [colname|] eqn:Hfind; [done|].
  destruct (handler_setter handler) as [hd|e] eqn:Hh; [|done].
  intros [= <- <-]. simpl. split; [done|]. split; [done|].
  split.
  { set (f := fun (t : table) (col : string) => _).
    assert (Hf : forall l t, colnames (fold_left f l t) = colnames t).
    { induction l as [|a l IH]; intros t; simpl; [done|].
      rewrite IH. unfold f. destruct (negb _); [apply colnames_set_meta | done]. }
    rewrite Hf. apply colnames_set_meta. }
  split.
  - intros n.
    rewrite (lookup_fold_meta (source_meta src)), colnames_set_meta, lookup_set_meta.
    destruct (String.eqb_spec n "time") as [->|Hnt]; simpl.
    + by rewrite andb_false_r.
    + rewrite andb_true_r. destruct (decide (n ∈ colnames tbl)) as [Hin|Hnin].
      * by rewrite bool_decide_eq_true_2.
      * rewrite bool_decide_eq_false_2 by done.
        rewrite lookup_colnames in Hnin.
        destruct (table_lookup n tbl); [|done]. destruct Hnin; eauto.
  - intros n c Hnt Hl.
    assert (Hin : In n (colnames tbl)).
    { apply list_elem_of_In, lookup_colnames. eauto. }
    apply (find_none _ _ Hfind) in Hin. rewrite Hl in Hin.
    destruct (String.eqb_spec n "time"); [done|]. simpl in Hin.
    by destruct (is_Quantity c).
Qed.

(** The constructor on a [TimeSeries]. *)
Lemma init_series (src : table) (handler : pyhandler) (h : heap) :
  __init__ (PyTimeSeries src) handler h
  = if (List.length src <? 2)%nat then (Raise InvalidShape_columns, h)
    else if negb (has_column "time" src) then (Raise InvalidShape_time, h)
    else let '(tbl, h1) := TimeSeries_copy src h in
         init_columns src handler tbl h1.
Proof. done. Qed.

(** The constructor on a [Table] that is no [TimeSeries]: past the shape
    checks, the call of the [TimeSeries] constructor raises. *)
Lemma init_Table (src : table) (handler : pyhandler) (h : heap) :
  __init__ (PyTable src) handler h
  = if (List.length src <? 2)%nat then (Raise InvalidShape_columns, h)
    else if negb (has_column "time" src) then (Raise InvalidShape_time, h)
    else (Raise (Foreign "TypeError"), h).
Proof. done. Qed.

(** The two table branches make the same shape checks. *)
Lemma init_shape (data : pydata) (src : table) (handler : pyhandler) (h : heap) :
  table_input data src ->
  (List.length src < 2 -> __init__ data handler h = (Raise InvalidShape_columns, h))
  /\ (2 <= List.length src -> has_column "time" src = false ->
      __init__ data handler h = (Raise InvalidShape_time, h)).
Proof.
  intros [-> | ->]; rewrite ?init_series, ?init_Table;
    destruct (Nat.ltb_spec (List.length src) 2); split; intros; try lia; try done;
    by rewrite H1.
Qed.

Lemma table_input_series (data : pydata) (src src0 : table) :
  table_input data src -> data = PyTimeSeries src0 -> src0 = src.
Proof. intros [-> | ->] [=]; done. Qed.

Lemma init_Return (data : pydata) (handler : pyhandler) (h : heap)
    (sd : ScienceData) (h1 : heap) :
  __init__ data handler h = (Return sd, h1) ->
  exists src tbl,
    data = PyTimeSeries src
    /\ 2 <= List.length src
    /\ has_column "time" src = true
    /\ TimeSeries_copy src h = (tbl, h1)
    /\ init_columns src handler tbl h1 = (Return sd, h1).
Proof.
  intros H. destruct data as [src|src|]; [| |done].
  2:{ rewrite init_Table in H.
      destruct (List.length src <? 2)%nat; [done|].
      by destruct (negb (has_column "time" src)). }
  rewrite init_series in H.
  destruct (Nat.ltb_spec (List.length src) 2); [done|].
  destruct (has_column "time" src) eqn:Ht; [|done]. simpl in H.
  destruct (TimeSeries_copy src h) as [tbl h2] eqn:Hc.
  pose proof (init_columns_Return _ _ _ _ _ _ H) as [-> _].
  by exists src, tbl.
Qed.

(** The unit check on the copy is the check that every column of the
    source other than the time carries a unit. *)
Lemma unit_check_on_copy (src tbl : table) (h h1 : heap) (n : string) :
  TimeSeries_copy src h = (tbl, h1) ->
  negb (String.eqb n "time")
  && negb (match table_lookup n tbl with
           | Some c => is_Quantity c
           | None => false
           end)
  = lacks_unit src n.
Proof.
  intros Hc. unfold lacks_unit.
  destruct (String.eqb_spec n "time") as [->|Hnt]; [done|]. simpl.
  apply TimeSeries_copy_spec in Hc as (_ & _ & _ & Hl). specialize (Hl n).
  destruct (table_lookup n src) as [c|]; [|by rewrite Hl].
  destruct Hl as (c' & -> & Hcls & _).
  unfold is_Quantity, carries_unit, unit_of, stored_class in *. rewrite Hcls.
  destruct (String.eqb_spec n "time"); [done|].
  by destruct (cls c) as [| |[|]].
Qed.

Lemma find_agree {A} (f g : A -> bool) (l : list A) :
  (forall a, f a = g a) -> List.find f l = List.find g l.
Proof.
  intros Hfg. induction l as [|a l IH]; simpl; [done|].
  by rewrite Hfg, IH.
Qed.

(** ** Shape errors *)

(** C1: a table with fewer than two columns is rejected for its column
    count, whether or not it has a time column; a table with two columns or
    more and no "time" column is rejected for the missing column.  Both
    errors are value errors whose message states the rule, and [load]
    raises them for the table its handler loaded. *)
Theorem invalid_shape_rejected
    (load_data : IOHandler -> string -> heap -> foreign pydata * heap)
    (data : pydata) (src : table) (handler : pyhandler) (h : heap)
    (Hd : table_input data src) :
  (List.length src < 2 ->
   __init__ data handler h = (Raise InvalidShape_columns, h)
   /\ forall hd filename h0,
       load_data hd filename h0 = (inl data, h) ->
       load load_data filename (HInstance hd) h0 = (Raise InvalidShape_columns, h))
  /\ (2 <= List.length src -> has_column "time" src = false ->
      __init__ data handler h = (Raise InvalidShape_time, h)
      /\ forall hd filename h0,
          load_data hd filename h0 = (inl data, h) ->
          load load_data filename (HInstance hd) h0 = (Raise InvalidShape_time, h)).
Proof.
  split.
  - intros Hlen.
    assert (Hi : forall hdl, __init__ data hdl h = (Raise InvalidShape_columns, h)).
    { intros hdl. by apply (init_shape data src hdl h Hd). }
    split; [apply Hi|].
    intros hd filename h0 Hload. unfold load. rewrite Hload. apply Hi.
  - intros Hlen Ht.
    assert (Hi : forall hdl, __init__ data hdl h = (Raise InvalidShape_time, h)).
    { intros hdl. by apply (init_shape data src hdl h Hd). }
    split; [apply Hi|].
    intros hd filename h0 Hload. unfold load. rewrite Hload. apply Hi.
Qed.

Lemma invalid_shape_rejected_witness :
  __init__ (PyTable lone_column) HNone sample_store
  = (Raise InvalidShape_columns, sample_store)
  /\ load (a_loader_of (PyTimeSeries no_time_table)) "x.cdf" (HInstance CDFHandler)
          sample_store
     = (Raise InvalidShape_time, sample_store).
Proof.
  split.
  - apply (invalid_shape_rejected sample_load_data (PyTable lone_column) lone_column
             HNone sample_store (or_intror eq_refl)).
    apply le_n.
  - destruct (invalid_shape_rejected (a_loader_of (PyTimeSeries no_time_table))
                (PyTimeSeries no_time_table) no_time_table HNone sample_store
                (or_introl eq_refl)) as [_ H].
    apply H; [apply le_n | reflexivity | reflexivity].
Defined.

(** ** Columns without a unit *)

(** C2: for a [TimeSeries] that passes the shape checks, the constructor
    raises the missing unit error for the first column, in column order,
    that is not the time column and carries no unit; so it fails whenever
    such a column exists, naming one, and it succeeds only when every
    column other than the time carries a unit.  For a [Table] that passes
    the shape checks it raises the type error of the [TimeSeries]
    constructor instead, whatever the columns are. *)
Theorem missing_unit_rejected
    (src : table) (handler : pyhandler) (h : heap)
    (Hlen : 2 <= List.length src)
    (Htime : has_column "time" src = true) :
  (forall colname,
      List.find (lacks_unit src) (colnames src) = Some colname ->
      exists h1, __init__ (PyTimeSeries src) handler h = (Raise (MissingUnit colname), h1))
  /\ (forall name c,
         name <> "time" -> table_lookup name src = Some c -> carries_unit c = false ->
         exists colname c0 h1,
           __init__ (PyTimeSeries src) handler h = (Raise (MissingUnit colname), h1)
           /\ colname <> "time"
           /\ table_lookup colname src = Some c0
           /\ carries_unit c0 = false)
  /\ (forall sd h1,
         __init__ (PyTimeSeries src) handler h = (Return sd, h1) ->
         forall name c,
           name <> "time" -> table_lookup name src = Some c -> carries_unit c = true)
  /\ __init__ (PyTable src) handler h = (Raise (Foreign "TypeError"), h).
Proof.
  assert (Hinit : exists tbl h1,
             TimeSeries_copy src h = (tbl, h1)
             /\ __init__ (PyTimeSeries src) handler h
                = init_columns src handler tbl h1).
  { destruct (TimeSeries_copy src h) as [tbl h1] eqn:Hc. exists tbl, h1.
    split; [done|]. rewrite init_series, Htime, Hc.
    by destruct (Nat.ltb_spec (List.length src) 2); [lia|]. }
  destruct Hinit as (tbl & h1 & Hc & Hinit).
  assert (Hfind : List.find (fun colname =>
                     negb (String.eqb colname "time")
                     && negb (match table_lookup colname tbl with
                              | Some c => is_Quantity c
                              | None => false
                              end)) (colnames tbl)
                  = List.find (lacks_unit src) (colnames src)).
  { pose proof (TimeSeries_copy_spec _ _ _ _ Hc) as (-> & _).
    apply find_agree. intros n. by apply (unit_check_on_copy src tbl h h1). }
  assert (H1 : forall colname,
             List.find (lacks_unit src) (colnames src) = Some colname ->
             exists h1, __init__ (PyTimeSeries src) handler h
                        = (Raise (MissingUnit colname), h1)).
  { intros colname Hf. exists h1. rewrite Hinit. unfold init_columns.
    by rewrite Hfind, Hf. }
  split; [exact H1|]. split; [|split].
  - intros name c Hnt Hl Hu.
    destruct (List.find (lacks_unit src) (colnames src)) as [colname|] eqn:Hf.
    + destruct (H1 colname eq_refl) as [h2 Hr].
      apply find_some in Hf as [Hin Hlack].
      apply list_elem_of_In, lookup_colnames in Hin as [c0 Hc0].
      unfold lacks_unit in Hlack. rewrite Hc0 in Hlack.
      exists colname, c0, h2. split; [done|].
      destruct (String.eqb_spec colname "time"); [done|].
      split; [done|]. split; [done|]. simpl in Hlack.
      by destruct (carries_unit c0).
    + assert (Hin : In name (colnames src)).
      { apply list_elem_of_In, lookup_colnames. eauto. }
      apply (find_none _ _ Hf) in Hin. unfold lacks_unit in Hin.
      rewrite Hl, Hu in Hin. by destruct (String.eqb_spec name "time").
  - intros sd h2 Hr name c Hnt Hl.
    rewrite Hinit in Hr. unfold init_columns in Hr. rewrite Hfind in Hr.
    destruct (List.find (lacks_unit src) (colnames src)) eqn:Hf; [done|].
    assert (Hin : In name (colnames src)).
    { apply list_elem_of_In, lookup_colnames. eauto. }
    apply (find_none _ _ Hf) in Hin. unfold lacks_unit in Hin. rewrite Hl in Hin.
    destruct (String.eqb_spec name "time"); [done|].
    by destruct (carries_unit c).
  - rewrite init_Table, Htime.
    by destruct (Nat.ltb_spec (List.length src) 2); [lia|].
Qed.

Lemma missing_unit_rejected_witness :
  (exists h1,
      __init__ (PyTimeSeries unitless_table) HNone sample_store
      = (Raise (MissingUnit "flux"), h1))
  /\ __init__ (PyTable unitless_table) HNone sample_store
     = (Raise (Foreign "TypeError"), sample_store).
Proof.
  destruct (missing_unit_rejected unitless_table HNone sample_store) as (H & _ & _ & Ht).
  - apply le_n.
  - reflexivity.
  - split; [apply H; reflexivity | exact Ht].
Defined.

(** ** Dispatch on the file extension *)

Example splitext_plain : posixpath.splitext "x.cdf" = ("x", ".cdf").
Proof. reflexivity. Qed.

Example splitext_last_dot : posixpath.splitext "dir.d/x.tar.nc" = ("dir.d/x.tar", ".nc").
Proof. reflexivity. Qed.

Example splitext_hidden : posixpath.splitext "dir/.fits" = ("dir/.fits", EmptyString).
Proof. reflexivity. Qed.

Example read_upper_case :
  fst (read sample_load_data "x.CDF" sample_store) = Raise (UnsupportedFormat ".CDF").
Proof. reflexivity. Qed.

Example read_unknown :
  fst (read sample_load_data "x.unknown" sample_store)
  = Raise (UnsupportedFormat ".unknown").
Proof. reflexivity. Qed.

Lemma lacks_app (c : ascii) (s1 s2 : string) :
  lacks c (s1 +:+ s2) = lacks c s1 && lacks c s2.
Proof.
  induction s1 as [|a s1 IH]; simpl; [done|].
  by rewrite IH, andb_assoc.
Qed.

Lemma rfind_from_lacks (c : ascii) (s : string) :
  lacks c s = true ->
  forall i last, posixpath.rfind_from c s i last = last.
Proof.
  induction s as [|a s IH]; simpl; [done|].
  intros [Ha Hs]%andb_true_iff i last.
  apply negb_true_iff in Ha. rewrite Ha. by apply IH.
Qed.

Lemma rfind_from_app (c : ascii) (s1 s2 : string) :
  forall i last,
    posixpath.rfind_from c (s1 +:+ s2) i last
    = posixpath.rfind_from c s2 (i + Z.of_nat (String.length s1))
        (posixpath.rfind_from c s1 i last).
Proof.
  induction s1 as [|a s1 IH]; intros i last.
  - simpl. by rewrite Z.add_0_r.
  - simpl. rewrite IH. f_equal. lia.
Qed.

Lemma rfind_from_bounds (c : ascii) (s : string) :
  forall i last,
    (-1 <= last < i)%Z ->
    (-1 <= posixpath.rfind_from c s i last < i + Z.of_nat (String.length s))%Z.
Proof.
  induction s as [|a s IH]; intros i last Hl; simpl String.length.
  - simpl. lia.
  - cbn [posixpath.rfind_from].
    destruct (Ascii.eqb a c).
    + specialize (IH (i + 1)%Z i). lia.
    + specialize (IH (i + 1)%Z last). lia.
Qed.

Lemma get_app (s1 : string) (a : ascii) (s2 : string) :
  String.get (String.length s1) (s1 +:+ String a s2) = Some a.
Proof. induction s1 as [|b s1 IH]; simpl; done. Qed.

Lemma meets_non_dot_at (p : string) (a : ascii) :
  forall n i j,
    i <= j < i + n -> String.get j p = Some a -> a <> "."%char ->
    posixpath.meets_non_dot p i n = true.
Proof.
  induction n as [|n IH]; intros i j Hj Hget Ha; [lia|].
  cbn [posixpath.meets_non_dot].
  destruct (String.get i p) as [a0|] eqn:Hi; [|done].
  destruct (Ascii.eqb_spec a0 "."%char) as [->|Hne]; [|done].
  apply (IH (S i) j); [|done|done].
  destruct (decide (i = j)) as [->|Hij]; [congruence | lia].
Qed.

Lemma substring_prefix (s1 s2 : string) :
  String.substring 0 (String.length s1) (s1 +:+ s2) = s1.
Proof.
  induction s1 as [|a s1 IH]; simpl.
  - by destruct s2.
  - by rewrite IH.
Qed.

Lemma substring_whole (s : string) : String.substring 0 (String.length s) s = s.
Proof. induction s as [|a s IH]; simpl; [done | by rewrite IH]. Qed.

Lemma substring_suffix (s1 s2 : string) :
  String.substring (String.length s1) (String.length s2) (s1 +:+ s2) = s2.
Proof.
  induction s1 as [|a s1 IH]; simpl; [apply substring_whole | done].
Qed.

Lemma length_append (s1 s2 : string) :
  String.length (s1 +:+ s2) = String.length s1 + String.length s2.
Proof. induction s1 as [|a s1 IH]; simpl; [done | by rewrite IH]. Qed.

Lemma append_assoc (s1 s2 s3 : string) : (s1 +:+ s2) +:+ s3 = s1 +:+ (s2 +:+ s3).
Proof.
  induction s1 as [|a s1 IH]; [done|].
  change (String a ((s1 +:+ s2) +:+ s3) = String a (s1 +:+ (s2 +:+ s3))).
  by f_equal.
Qed.

(** The extension of a path whose last component is a stem without dot or
    slash followed by a dot and a suffix without dot or slash is the dot
    and the suffix. *)
Lemma splitext_suffix (dir stem ext : string) :
  lacks "/" stem = true -> lacks "." stem = true -> stem <> EmptyString ->
  lacks "/" ext = true -> lacks "." ext = true ->
  posixpath.splitext (dir +:+ stem +:+ String "." ext)
  = (dir +:+ stem, String "." ext).
Proof.
  intros Hs1 Hs2 Hne He1 He2.
  set (p := dir +:+ stem +:+ String "." ext).
  assert (Hsep : posixpath.rfind p "/" = posixpath.rfind dir "/").
  { unfold posixpath.rfind, p. rewrite rfind_from_app.
    apply rfind_from_lacks. rewrite lacks_app. simpl. by rewrite Hs1, He1. }
  assert (Hdot : posixpath.rfind p "." 
                 = Z.of_nat (String.length dir + String.length stem)).
  { unfold posixpath.rfind, p. rewrite !rfind_from_app.
    cbn [posixpath.rfind_from]. rewrite (rfind_from_lacks _ _ He2). simpl. lia. }
  pose proof (rfind_from_bounds "/" dir 0 (-1) ltac:(lia)) as Hb.
  fold (posixpath.rfind dir "/") in Hb.
  unfold posixpath.splitext. fold p. rewrite Hsep, Hdot.
  destruct stem as [|a stem']; [done|].
  simpl in Hs2. apply andb_true_iff in Hs2 as [Ha _]. apply negb_true_iff in Ha.
  rewrite (meets_non_dot_at p a _ _ (String.length dir)).
  - destruct (Z.ltb_spec (posixpath.rfind dir "/")
                (Z.of_nat (String.length dir + String.length (String a stem'))));
      [|simpl in *; lia].
    simpl andb. cbv iota. rewrite Nat2Z.id.
    assert (Hp : p = (dir +:+ String a stem') +:+ String "." ext).
    { unfold p. by rewrite append_assoc. }
    rewrite Hp at 1 2 3. rewrite <- length_append.
    rewrite substring_prefix. f_equal.
    rewrite (length_append (dir +:+ String a stem') (String "." ext)).
    rewrite Nat.add_comm, Nat.add_sub.
    apply substring_suffix.
  - simpl String.length. lia.
  - unfold p. simpl. apply get_app.
  - intros ->. by rewrite Ascii.eqb_refl in Ha.
Qed.

(** So a file name ending in one of the three suffixes goes to the handler
    of that format, and the comparison tells upper case from lower. *)
Lemma read_by_suffix
    (load_data : IOHandler -> string -> heap -> foreign pydata * heap)
    (dir stem : string) (h : heap) :
  lacks "/" stem = true -> lacks "." stem = true -> stem <> EmptyString ->
  read load_data (dir +:+ stem +:+ ".cdf") h
  = load load_data (dir +:+ stem +:+ ".cdf") (HInstance CDFHandler) h
  /\ read load_data (dir +:+ stem +:+ ".nc") h
     = load load_data (dir +:+ stem +:+ ".nc") (HInstance NetCDFHandler) h
  /\ read load_data (dir +:+ stem +:+ ".fits") h
     = load load_data (dir +:+ stem +:+ ".fits") (HInstance FITSHandler) h
  /\ read load_data (dir +:+ stem +:+ ".CDF") h
     = (Raise (UnsupportedFormat ".CDF"), h).
Proof.
  intros H1 H2 H3. unfold read.
  rewrite !(splitext_suffix dir stem) by done. done.
Qed.

(** C3: [read] and [validate] compare the extension [os.path.splitext]
    finds with ".cdf", ".nc" and ".fits" exactly: each selects the handler,
    or the validator, of its format, and [validate] gives back the issues
    the validator gives, as they are; any other extension raises the
    unsupported type error. *)
Theorem dispatch_by_extension
    (load_data : IOHandler -> string -> heap -> foreign pydata * heap)
    (validator_validate : FileValidator -> string -> foreign (list string))
    (filename : string) (h : heap) :
  let file_extension := snd (posixpath.splitext filename) in
  let selects hd v :=
    read load_data filename h = load load_data filename (HInstance hd) h
    /\ validate validator_validate filename
       = propagate (validator_validate v filename)
    /\ forall issues,
        validator_validate v filename = inl issues ->
        validate validator_validate filename = Return issues in
  (file_extension = ".cdf" -> selects CDFHandler CDFValidator)
  /\ (file_extension = ".nc" -> selects NetCDFHandler NetCDFValidator)
  /\ (file_extension = ".fits" -> selects FITSHandler FITSValidator)
  /\ (file_extension <> ".cdf" -> file_extension <> ".nc" -> file_extension <> ".fits" ->
      read load_data filename h = (Raise (UnsupportedFormat file_extension), h)
      /\ validate validator_validate filename
         = Raise (UnsupportedFormat file_extension)).
Proof.
  intros file_extension selects. unfold selects, read, validate.
  fold file_extension.
  split; [|split; [|split]].
  - intros ->. simpl. repeat split. by intros issues ->.
  - intros ->. simpl. repeat split. by intros issues ->.
  - intros ->. simpl. repeat split. by intros issues ->.
  - intros H1 H2 H3.
    destruct (String.eqb_spec file_extension ".cdf"); [done|].
    destruct (String.eqb_spec file_extension ".nc"); [done|].
    by destruct (String.eqb_spec file_extension ".fits").
Qed.

Lemma dispatch_by_extension_witness :
  read sample_load_data "run1.cdf" sample_store
  = load sample_load_data "run1.cdf" (HInstance CDFHandler) sample_store
  /\ validate sample_validate "run1.cdf" = Return ["missing global attribute"]
  /\ validate sample_validate "run1.txt" = Raise (UnsupportedFormat ".txt").
Proof.
  pose proof (dispatch_by_extension sample_load_data sample_validate "run1.cdf"
                sample_store) as (Hcdf & _).
  pose proof (dispatch_by_extension sample_load_data sample_validate "run1.txt"
                sample_store) as (_ & _ & _ & Hother).
  destruct (Hcdf eq_refl) as (Hread & _ & Hissues).
  split; [exact Hread|]. split.
  - apply Hissues. reflexivity.
  - apply Hother; discriminate.
Defined.

(** ** Construction from a valid table *)

Lemma valid_table_spec (src : table) :
  valid_table src = true ->
  2 <= List.length src
  /\ has_column "time" src = true
  /\ List.find (lacks_unit src) (colnames src) = None.
Proof.
  unfold valid_table. rewrite !andb_true_iff.
  intros [[Hlen Ht] Hall]. apply Nat.leb_le in Hlen.
  split; [done|]. split; [done|].
  destruct (List.find _ _) as [n|] eqn:Hf; [|done].
  apply find_some in Hf as [Hin Hlack].
  rewrite forallb_forall in Hall. apply Hall in Hin. by rewrite Hlack in Hin.
Qed.

Lemma allocated_lookup (t : table) (h : heap) (name : string) (c : colobj) :
  table_allocated t h = true -> table_lookup name t = Some c ->
  buf c < List.length h.
Proof.
  unfold table_allocated. rewrite forallb_forall. intros Hall Hl.
  apply lookup_elem, list_elem_of_In, Hall in Hl. simpl in Hl.
  by apply Nat.ltb_lt.
Qed.

(** A valid [TimeSeries] and a legal handler make the constructor return;
    the container has the columns of the source, each over a copy of its
    buffer. *)
Lemma init_valid (data : pydata) (src : table) (handler : pyhandler) (h : heap) :
  data = PyTimeSeries src -> valid_table src = true -> handler <> HForeign ->
  exists sd tbl h1,
    __init__ data handler h = (Return sd, h1)
    /\ TimeSeries_copy src h = (tbl, h1)
    /\ init_columns src handler tbl h1 = (Return sd, h1).
Proof.
  intros -> Hv Hh. apply valid_table_spec in Hv as (Hlen & Ht & Hf).
  rewrite init_series, Ht.
  destruct (Nat.ltb_spec (List.length src) 2); [lia|]. simpl.
  destruct (TimeSeries_copy src h) as [tbl h1] eqn:Hc.
  assert (Hfind : List.find (fun colname =>
                     negb (String.eqb colname "time")
                     && negb (match table_lookup colname tbl with
                              | Some c => is_Quantity c
                              | None => false
                              end)) (colnames tbl) = None).
  { rewrite <- Hf. pose proof (TimeSeries_copy_spec _ _ _ _ Hc) as (-> & _).
    apply find_agree. intros n. by apply (unit_check_on_copy src tbl h h1). }
  unfold init_columns. rewrite Hfind.
  destruct handler as [|hd|]; [| |done]; simpl;
    (eexists _, tbl, h1; split; [reflexivity|]; split; [reflexivity|];
     by rewrite Hfind).
Qed.

(** C4: a container built from a valid [TimeSeries] gives back, under
    every column name of the table, a column with the values of the
    source's column and, for the columns other than the time, its unit; it
    has no other columns.  From a valid [Table] no container is built: the
    constructor raises the type error of the [TimeSeries] constructor. *)
Theorem construct_then_get
    (src : table) (handler : pyhandler) (h : heap)
    (Hv : valid_table src = true)
    (Ha : table_allocated src h = true)
    (Hh : handler <> HForeign) :
  (exists sd h1,
      __init__ (PyTimeSeries src) handler h = (Return sd, h1)
      /\ columns sd = colnames src
      /\ forall name c,
          table_lookup name src = Some c ->
          exists c',
            __getitem__ sd name = Return c'
            /\ deref h1 (buf c') = deref h (buf c)
            /\ (name <> "time" -> is_Quantity c' = true /\ unit_of c' = unit_of c))
  /\ __init__ (PyTable src) handler h = (Raise (Foreign "TypeError"), h).
Proof.
  split.
  2:{ apply valid_table_spec in Hv as (Hlen & Ht & _). rewrite init_Table, Ht.
      by destruct (Nat.ltb_spec (List.length src) 2); [lia|]. }
  destruct (init_valid (PyTimeSeries src) src handler h eq_refl Hv Hh)
    as (sd & tbl & h1 & Hi & Hc & Hcols).
  exists sd, h1. split; [done|].
  apply init_columns_Return in Hcols as (_ & _ & Hnames & Hl & Hq).
  pose proof (TimeSeries_copy_spec _ _ _ _ Hc) as (Hn & _ & _ & Hcopy).
  split; [unfold columns; by rewrite Hnames|].
  intros name c Hsrc. specialize (Hcopy name). rewrite Hsrc in Hcopy.
  destruct Hcopy as (c' & Hc' & Hcls & _ & Hval).
  exists (with_meta (source_meta src name) c').
  unfold __getitem__. rewrite Hl, Hc'.
  rewrite bool_decide_eq_true_2.
  2:{ rewrite Hnames. apply lookup_colnames. eauto. }
  simpl. split; [done|].
  split; [apply Hval; by apply (allocated_lookup src h name)|].
  intros Hnt. split; [by apply (Hq name c')|].
  unfold unit_of. simpl. rewrite Hcls. unfold stored_class.
  destruct (String.eqb_spec name "time"); [done|].
  by destruct (cls c) as [| |[|]].
Qed.

Lemma construct_then_get_witness :
  (exists sd h1,
      __init__ (PyTimeSeries sample_series) HNone sample_store = (Return sd, h1)
      /\ exists c',
          __getitem__ sd "flux" = Return c'
          /\ deref h1 (buf c') = [3; 1; 4; 1; 5; 9; 2; 6]%Z
          /\ unit_of c' = Some (Unit "counts"))
  /\ __init__ (PyTable sample_series) HNone sample_store
     = (Raise (Foreign "TypeError"), sample_store).
Proof.
  destruct (construct_then_get sample_series HNone sample_store eq_refl eq_refl)
    as [(sd & h1 & Hi & _ & Hget) Ht]; [discriminate|].
  split; [|exact Ht].
  exists sd, h1. split; [exact Hi|].
  destruct (Hget "flux" (mkcol (Quantity (Unit "counts")) 1 None) eq_refl)
    as (c' & Hc' & Hval & Hunit).
  exists c'. split; [exact Hc'|]. split; [exact Hval|].
  apply Hunit. discriminate.
Defined.

(** ** Mutating the source after construction *)

Lemma outside_replace (k0 k1 : nat) (name : string) (c : colobj) (t : table) :
  outside k0 k1 t -> (buf c < k0 \/ k1 <= buf c) ->
  outside k0 k1 (table_replace name c t).
Proof.
  unfold outside. intros Ht Hc.
  induction Ht as [|[n c0] t Hx Ht IH]; simpl; [constructor|].
  destruct (String.eqb n name); constructor; done.
Qed.

Lemma outside_set_meta (k0 k1 : nat) (name : string) (m : gmap string pyval) (t : table) :
  outside k0 k1 t -> outside k0 k1 (table_set_meta name m t).
Proof.
  unfold outside. intros Ht.
  induction Ht as [|[n c0] t Hx Ht IH]; simpl; [constructor|].
  destruct (String.eqb n name); constructor; done.
Qed.

Lemma outside_filter (k0 k1 : nat) (f : string * colobj -> bool) (t : table) :
  outside k0 k1 t -> outside k0 k1 (List.filter f t).
Proof.
  unfold outside. intros Ht.
  induction Ht as [|e t Hx Ht IH]; simpl; [constructor|].
  destruct (f e); [constructor|]; done.
Qed.

(** What the table is after an item assignment it did not refuse. *)
Lemma table_setitem_inl (name : string) (value : colobj) (t : table) (h : heap)
    (t' : table) (h' : heap) :
  table_setitem name value t h = inl (t', h') ->
  exists rows,
    rows_to_store name value t h = inl rows
    /\ h' = h ++ [rows]
    /\ t' = (if has_column name t
             then table_replace name
                    {| cls := cls value; buf := List.length h; meta := meta value |} t
             else t ++ [(name, {| cls := cls value; buf := List.length h;
                                  meta := meta value |})]).
Proof.
  unfold table_setitem. destruct (rows_to_store name value t h) as [rows|]; [|done].
  unfold table_store, alloc. intros [= <- <-]. by exists rows.
Qed.

(** One mutation of a table whose buffers lie outside a window of the
    store leaves the window as it is, and the table outside it. *)
Lemma mutate_frame (k0 k1 : nat) (src : table) (h : heap) (mu : mutation) :
  outside k0 k1 src -> k1 <= List.length h ->
  outside k0 k1 (fst (mutate (src, h) mu))
  /\ k1 <= List.length (snd (mutate (src, h) mu))
  /\ forall l, k0 <= l < k1 -> snd (mutate (src, h) mu) !! l = h !! l.
Proof.
  intros Hout Hk. destruct mu as [name i v|name value|name|name m]; simpl.
  - destruct (table_lookup name src) as [c|] eqn:Hl; simpl; [|done].
    split; [done|]. rewrite length_insert. split; [done|].
    intros l Hwin. apply list_lookup_insert_ne.
    apply lookup_elem in Hl. unfold outside in Hout.
    rewrite Forall_forall in Hout. apply Hout in Hl. simpl in Hl. lia.
  - destruct (table_setitem name value src h) as [[t' h']|] eqn:Hset; [|done].
    apply table_setitem_inl in Hset as (rows & _ & -> & ->). simpl.
    rewrite length_app. simpl. split; [|split; [lia|]].
    + destruct (has_column name src).
      * apply outside_replace; [done|]. simpl. lia.
      * unfold outside. apply Forall_app. split; [done|].
        constructor; [simpl; lia | constructor].
    + intros l Hwin. apply lookup_app_l. lia.
  - split; [by apply outside_filter | done].
  - split; [by apply outside_set_meta | done].
Qed.

Lemma mutate_all_frame (k0 k1 : nat) (mus : list mutation) :
  forall (src : table) (h : heap),
    outside k0 k1 src -> k1 <= List.length h ->
    forall l, k0 <= l < k1 -> snd (mutate_all mus (src, h)) !! l = h !! l.
Proof.
  unfold mutate_all.
  induction mus as [|mu mus IH]; intros src h Hout Hk l Hwin; [done|].
  pose proof (mutate_frame k0 k1 src h mu Hout Hk) as Hstep.
  cbn [fold_left].
  destruct (mutate (src, h) mu) as [src' h'].
  destruct Hstep as (Hout' & Hk' & Hsame).
  rewrite (IH src' h' Hout' Hk' l Hwin). by apply Hsame.
Qed.

(** C5: however the caller mutates the table a container was built from
    (writing elements in place, assigning or removing columns, replacing
    metadata), every column of the container keeps its values. *)
Theorem copy_isolation
    (input : pydata) (src : table) (handler : pyhandler) (h : heap)
    (sd : ScienceData) (h1 : heap)
    (Hd : table_input input src)
    (Ha : table_allocated src h = true)
    (Hi : __init__ input handler h = (Return sd, h1)) :
  forall (mus : list mutation) (name : string) (c : colobj),
    table_lookup name (data sd) = Some c ->
    deref (snd (mutate_all mus (src, h1))) (buf c) = deref h1 (buf c).
Proof.
  intros mus name c Hl.
  destruct (init_Return _ _ _ _ _ Hi) as (src0 & tbl & Hd0 & _ & _ & Hc & Hcols).
  rewrite (table_input_series _ _ _ Hd Hd0) in *. clear Hd0 src0.
  pose proof (init_columns_Return _ _ _ _ _ _ Hcols) as (_ & _ & _ & Hlook & _).
  pose proof (TimeSeries_copy_spec _ _ _ _ Hc) as (_ & _ & _ & Hcopy).
  rewrite Hlook in Hl. specialize (Hcopy name).
  destruct (table_lookup name tbl) as [c'|] eqn:Hc'; [|done].
  injection Hl as <-. simpl.
  assert (Hwin : List.length h <= buf c' < List.length h1).
  { destruct (table_lookup name src); [|congruence].
    destruct Hcopy as (c0 & [= <-] & _ & Hb & _). exact Hb. }
  unfold deref. f_equal.
  apply (mutate_all_frame (List.length h) (List.length h1)); [|lia|done].
  unfold outside. apply Forall_forall. intros e He. left.
  unfold table_allocated in Ha. rewrite forallb_forall in Ha.
  apply Nat.ltb_lt, Ha. by apply list_elem_of_In.
Qed.

Lemma copy_isolation_witness :
  exists sd h1 c,
    __init__ (PyTimeSeries sample_series) HNone sample_store = (Return sd, h1)
    /\ __getitem__ sd "flux" = Return c
    /\ deref h1 (buf c) = [3; 1; 4; 1; 5; 9; 2; 6]%Z
    /\ let after := mutate_all [write_element "flux" 0 99%Z; remove_column "time"]
                               (sample_series, h1) in
       colnames (fst after) = ["flux"]
       /\ deref (snd after) 1 = [99; 1; 4; 1; 5; 9; 2; 6]%Z
       /\ deref (snd after) (buf c) = [3; 1; 4; 1; 5; 9; 2; 6]%Z.
Proof.
  eexists _, _, _. split; [reflexivity|]. split; [reflexivity|].
  split; [reflexivity|]. split; [reflexivity|]. split; [reflexivity|].
  rewrite (copy_isolation (PyTimeSeries sample_series) sample_series HNone
             sample_store _ _ (or_introl eq_refl) eq_refl eq_refl
             [write_element "flux" 0 99%Z; remove_column "time"] "flux" _ eq_refl).
  reflexivity.
Defined.

(** ** Saving *)

(** C6: [save] raises the missing handler error exactly when the container
    has no handler, and then delegates nothing; with a handler it makes one
    call of the handler's [save_data], on the container itself and the
    given path, and gives back what the call gives.  Either way the
    container is as it was. *)
Theorem save_delegates
    (save_data : IOHandler -> ScienceData -> string -> foreign unit)
    (self : ScienceData) (output_path : string) (log : list event) :
  (fst (save save_data self output_path log) = Raise NoHandlerConfigured
   <-> _handler self = None)
  /\ (_handler self = None ->
      save save_data self output_path log = (Raise NoHandlerConfigured, (self, log)))
  /\ (forall hd,
         _handler self = Some hd ->
         save save_data self output_path log
         = (propagate (save_data hd self output_path),
            (self, log ++ [save_data_call hd self output_path])))
  /\ fst (snd (save save_data self output_path log)) = self.
Proof.
  unfold save. destruct (_handler self) as [hd|]; simpl.
  - split; [|split; [done|split; [by intros ? [= <-]|done]]].
    split; [|done]. by destruct (save_data hd self output_path).
  - split; [done|]. split; [done|]. split; done.
Qed.

Lemma save_delegates_witness :
  let self := {| data := sample_series; _handler := Some FITSHandler |} in
  save sample_save_data self "out" []
  = (Return tt, (self, [save_data_call FITSHandler self "out"]))
  /\ save sample_save_data {| data := sample_series; _handler := None |} "out" []
     = (Raise NoHandlerConfigured, ({| data := sample_series; _handler := None |}, [])).
Proof.
  split.
  - destruct (save_delegates sample_save_data
                {| data := sample_series; _handler := Some FITSHandler |} "out" [])
      as (_ & _ & H & _).
    exact (H FITSHandler eq_refl).
  - destruct (save_delegates sample_save_data
                {| data := sample_series; _handler := None |} "out" [])
      as (_ & H & _).
    exact (H eq_refl).
Defined.

(** ** Item assignment *)

(** The guard of [_add_variable] rejects what is not a unit-bearing
    quantity: the test of the unit never fails on a quantity. *)
Lemma rejected_unit_bearing (var_data : colobj) :
  rejected var_data = negb (unit_bearing var_data).
Proof.
  unfold rejected, unit_bearing, is_Quantity, carries_unit, unit_attr, unit_of.
  by destruct (cls var_data) as [| |[|]].
Qed.


(** What [_add_variable] does with data it accepts, when the table takes
    [rows] for it. *)
Lemma add_variable_accepts (self : ScienceData) (var_name : string)
    (var_data : colobj) (var_attrs : gmap string pyval) (h : heap) (rows : list Z) :
  rejected var_data = false ->
  rows_to_store var_name var_data (data self) h = inl rows ->
  exists self',
    let c := {| cls := cls var_data;
                buf := List.length h;
                meta := Some (match meta var_data with
                              | Some _ => var_attrs ∪ ∅
                              | None => ∅
                              end) |} in
    _add_variable self var_name var_data var_attrs h
    = (Return tt, (self', h ++ [rows]))
    /\ _handler self' = _handler self
    /\ colnames (data self')
       = (if has_column var_name (data self) then colnames (data self)
          else colnames (data self) ++ [var_name])
    /\ forall n, table_lookup n (data self')
                 = if String.eqb n var_name then Some c else table_lookup n (data self).
Proof.
  intros Hrej Hrows. unfold _add_variable. rewrite Hrej.
  unfold table_setitem. rewrite Hrows. unfold table_store, alloc.
  eexists. cbn zeta. split; [reflexivity|]. simpl. split; [done|].
  split.
  - destruct (meta var_data); rewrite ?colnames_set_meta;
      destruct (has_column var_name (data self));
      by rewrite ?colnames_replace; unfold colnames; rewrite ?map_app.
  - intros n.
    assert (Hset : forall c0,
               table_lookup n (if has_column var_name (data self)
                               then table_replace var_name c0 (data self)
                               else data self ++ [(var_name, c0)])
               = if String.eqb n var_name then Some c0
                 else table_lookup n (data self)).
    { intros c0. destruct (has_column var_name (data self)) eqn:Hhas.
      - by apply lookup_replace.
      - rewrite lookup_snoc. unfold has_column in Hhas.
        destruct (String.eqb_spec n var_name) as [->|Hne].
        + by destruct (table_lookup var_name (data self)).
        + by destruct (table_lookup n (data self)). }
    destruct (meta var_data); rewrite !lookup_set_meta, Hset;
      by destruct (String.eqb n var_name).
Qed.

(** An assignment that raises leaves the container and the store as they
    were. *)
Lemma add_variable_Raise (self : ScienceData) (var_name : string)
    (var_data : colobj) (var_attrs : gmap string pyval) (h : heap)
    (e : exn) (st : ScienceData * heap) :
  _add_variable self var_name var_data var_attrs h = (Raise e, st) -> st = (self, h).
Proof.
  unfold _add_variable. destruct (rejected var_data); [by intros [= _ <-]|].
  destruct (table_setitem var_name var_data (data self) h) as [[tbl h1]|what];
    [done | by intros [= _ <-]].
Qed.

(** An assignment that returns went past the guard and the table. *)
Lemma add_variable_Return (self : ScienceData) (var_name : string)
    (var_data : colobj) (var_attrs : gmap string pyval) (h : heap)
    (self' : ScienceData) (h' : heap) :
  _add_variable self var_name var_data var_attrs h = (Return tt, (self', h')) ->
  rejected var_data = false
  /\ exists rows,
      rows_to_store var_name var_data (data self) h = inl rows
      /\ h' = h ++ [rows]
      /\ _handler self' = _handler self
      /\ colnames (data self')
         = (if has_column var_name (data self) then colnames (data self)
            else colnames (data self) ++ [var_name])
      /\ forall n,
          table_lookup n (data self')
          = if String.eqb n var_name
            then Some {| cls := cls var_data;
                         buf := List.length h;
                         meta := Some (match meta var_data with
                                       | Some _ => var_attrs ∪ ∅
                                       | None => ∅
                                       end) |}
            else table_lookup n (data self).
Proof.
  intros Hadd. destruct (rejected var_data) eqn:Hrej.
  { unfold _add_variable in Hadd. by rewrite Hrej in Hadd. }
  split; [done|].
  destruct (rows_to_store var_name var_data (data self) h) as [rows|what] eqn:Hrows.
  - destruct (add_variable_accepts self var_name var_data var_attrs h rows Hrej Hrows)
      as (self0 & Hadd0 & Hh & Hnames & Hl).
    rewrite Hadd0 in Hadd. injection Hadd as <- <-.
    exists rows. done.
  - unfold _add_variable, table_setitem in Hadd. by rewrite Hrej, Hrows in Hadd.
Qed.




(** C8: after an item assignment that went through, the column stored
    under the name has an empty metadata mapping, whatever metadata the
    assigned quantity had. *)
Theorem setitem_discards_metadata
    (self : ScienceData) (name : string) (value : colobj) (h : heap)
    (self' : ScienceData) (h' : heap)
    (Hset : __setitem__ self name value h = (Return tt, (self', h'))) :
  exists c, table_lookup name (data self') = Some c /\ meta c = Some ∅.
Proof.
  unfold __setitem__ in Hset.
  apply add_variable_Return in Hset as (_ & rows & _ & _ & _ & _ & Hl).
  eexists. split; [by rewrite Hl, String.eqb_refl|]. simpl.
  destruct (meta value); [|done]. by rewrite (left_id_L ∅ (∪)).
Qed.

Lemma setitem_discards_metadata_witness :
  exists self' h' c,
    __setitem__ {| data := sample_series; _handler := None |} "flux"
      (mkcol (Quantity (Unit "counts")) 0 (Some {["CATDESC" := PyStr "flux"]}))
      sample_store
    = (Return tt, (self', h'))
    /\ table_lookup "flux" (data self') = Some c /\ meta c = Some ∅.
Proof.
  eexists _, _. 
  destruct (setitem_discards_metadata {| data := sample_series; _handler := None |}
              "flux"
              (mkcol (Quantity (Unit "counts")) 0 (Some {["CATDESC" := PyStr "flux"]}))
              sample_store _ _ eq_refl) as (c & Hc & Hm).
  exists c. split; [reflexivity|]. split; [exact Hc | exact Hm].
Defined.

(** ** The invariant *)

Lemma init_invariant (input : pydata) (handler : pyhandler) (h : heap)
    (sd : ScienceData) (h1 : heap) :
  __init__ input handler h = (Return sd, h1) -> invariant sd.
Proof.
  intros Hi.
  destruct (init_Return _ _ _ _ _ Hi) as (src & tbl & _ & Hlen & Ht & Hc & Hcols).
  apply init_columns_Return in Hcols as (_ & _ & Hnames & Hl & Hq).
  pose proof (TimeSeries_copy_spec _ _ _ _ Hc) as (Hn & _ & _ & Hcopy).
  split; [|split].
  - apply has_column_lookup. rewrite Hl.
    apply has_column_lookup in Ht as [c Hsrc].
    specialize (Hcopy "time"). rewrite Hsrc in Hcopy.
    destruct Hcopy as (c' & -> & _). simpl. eauto.
  - assert (Heq : List.length (data sd) = List.length src).
    { rewrite <- (length_map fst (data sd)), <- (length_map fst src).
      unfold colnames in *. congruence. }
    lia.
  - intros n c Hsd. rewrite Hl in Hsd.
    destruct (table_lookup n tbl) as [c'|] eqn:Hc'; [|done].
    injection Hsd as <-. split; [simpl; eauto|].
    intros Hnt. by apply (Hq n c').
Qed.

(** A public mutation keeps every column there is, and what it stores is
    a unit-bearing quantity. *)
Lemma step_columns (st : ScienceData * heap) (op : operation) :
  (forall n, has_column n (data (fst st)) = true ->
             has_column n (data (fst (step st op))) = true)
  /\ List.length (data (fst st)) <= List.length (data (fst (step st op)))
  /\ (forall n c,
         table_lookup n (data (fst (step st op))) = Some c ->
         table_lookup n (data (fst st)) = Some c
         \/ (unit_bearing c = true /\ is_Some (meta c))).
Proof.
  destruct st as [self h]. destruct op as [name value|value]; simpl.
  - unfold __setitem__.
    destruct (_add_variable self name value ∅ h) as [[[]|e] [self' h']] eqn:Hadd.
    2:{ apply add_variable_Raise in Hadd. injection Hadd as -> ->. simpl.
        split; [done|]. split; [done|]. eauto. }
    apply add_variable_Return in Hadd as (Hrej & rows & _ & _ & _ & Hnames & Hl).
    simpl. split; [|split].
    + intros n. rewrite !has_column_lookup, Hl.
      destruct (String.eqb n name); eauto.
    + rewrite <- (length_map fst (data self')), <- (length_map fst (data self)).
      unfold colnames in Hnames. rewrite Hnames.
      destruct (has_column name (data self)); [done|].
      rewrite length_app. lia.
    + intros n c. rewrite Hl. destruct (String.eqb n name); [|eauto].
      intros [= <-]. right. split; [|simpl; eauto].
      rewrite rejected_unit_bearing in Hrej.
      unfold unit_bearing, is_Quantity, carries_unit, unit_of in *. simpl.
      by destruct (cls value) as [| |[|]].
  - destruct (handler_setter value); simpl; split; try done; split; eauto.
Qed.

Lemma step_invariant (st : ScienceData * heap) (op : operation) :
  invariant (fst st) -> invariant (fst (step st op)).
Proof.
  intros (Ht & Hlen & Hcols).
  destruct (step_columns st op) as (Hkeep & Hgrow & Hnew).
  split; [by apply Hkeep|]. split; [lia|].
  intros n c Hl. destruct (Hnew n c Hl) as [Hold|[Hu Hm]].
  - by apply Hcols.
  - split; [done|]. intros _. unfold unit_bearing in Hu.
    by destruct (is_Quantity c).
Qed.

Lemma run_invariant (ops : list operation) :
  forall st,
    invariant (fst st) ->
    invariant (fst (run ops st))
    /\ forall n, has_column n (data (fst st)) = true ->
                 has_column n (data (fst (run ops st))) = true.
Proof.
  unfold run. induction ops as [|op ops IH]; intros st Hinv; simpl; [done|].
  destruct (IH (step st op) (step_invariant st op Hinv)) as [Hfin Hkeep].
  split; [done|]. intros n Hn. apply Hkeep. by apply step_columns.
Qed.

(** C10: a container that was constructed, after any sequence of item
    assignments and handler assignments (those that raise included), has a
    "time" column and two columns or more, and its other columns are
    quantities; no step removes a column, and a column a step stores is a
    unit-bearing quantity.  So [time] is not [None], the row count of
    [shape] is the length of the time column and its column count is two or
    more. *)
Theorem invariant_preserved
    (input : pydata) (handler : pyhandler) (h : heap)
    (sd : ScienceData) (h1 : heap) (ops : list operation)
    (Hi : __init__ input handler h = (Return sd, h1)) :
  let self := fst (run ops (sd, h1)) in
  let store := snd (run ops (sd, h1)) in
  invariant sd
  /\ invariant self
  /\ (forall n, __contains__ sd n = true -> __contains__ self n = true)
  /\ (forall st op n c,
         table_lookup n (data (fst (step st op))) = Some c ->
         table_lookup n (data (fst st)) = Some c \/ unit_bearing c = true)
  /\ (forall st op n,
         __contains__ (fst st) n = true -> __contains__ (fst (step st op)) n = true)
  /\ (exists t,
         time self = Some t
         /\ shape self store = (List.length (deref store (buf t)), __len__ self))
  /\ 2 <= snd (shape self store).
Proof.
  intros self store.
  pose proof (init_invariant _ _ _ _ _ Hi) as Hinv.
  destruct (run_invariant ops (sd, h1) Hinv) as [Hfin Hkeep].
  fold self in Hfin, Hkeep.
  split; [done|]. split; [done|]. split; [exact Hkeep|].
  split.
  { intros st op n c Hl. destruct (step_columns st op) as (_ & _ & Hnew).
    destruct (Hnew n c Hl) as [?|[? _]]; eauto. }
  split.
  { intros st op n. apply step_columns. }
  destruct Hfin as (Ht & Hlen & _).
  assert (Hncols : __len__ self = List.length (data self)).
  { unfold __len__, colnames. apply length_map. }
  split.
  - unfold time, shape. rewrite Ht.
    apply has_column_lookup in Ht as [t Htl]. rewrite Htl.
    exists t. split; [done|]. by rewrite Hncols, <- (length_map fst (data self)).
  - unfold shape. simpl. unfold colnames. rewrite length_map. lia.
Qed.

Lemma invariant_preserved_witness :
  exists sd h1,
    __init__ (PyTimeSeries sample_series) HNone sample_store = (Return sd, h1)
    /\ let ops := [set_item "energy" (mkcol (Quantity (Unit "keV")) 1 None);
                   set_item "flux" (mkcol (Column None) 0 None);
                   set_handler HForeign] in
       shape (fst (run ops (sd, h1))) (snd (run ops (sd, h1))) = (8, 3)
       /\ 2 <= snd (shape (fst (run ops (sd, h1))) (snd (run ops (sd, h1)))).
Proof.
  eexists _, _. split; [reflexivity|]. split; [reflexivity|].
  apply (invariant_preserved (PyTimeSeries sample_series) HNone sample_store _ _
           [set_item "energy" (mkcol (Quantity (Unit "keV")) 1 None);
            set_item "flux" (mkcol (Column None) 0 None);
            set_handler HForeign] eq_refl).
Defined.

(** ** Units *)

Lemma column_unit_resolved (c : colobj) :
  is_Some (meta c) -> column_unit c = Return (unit_resolved c).
Proof.
  intros [m Hm]. unfold column_unit, unit_resolved. rewrite Hm. simpl.
  destruct (unit_attr c); [done|]. destruct (m !! "UNITS") as [v|]; [|done].
  by destruct (truthy v).
Qed.

Lemma units_loop_spec (tbl : table) :
  (forall n c, table_lookup n tbl = Some c -> is_Some (meta c)) ->
  forall (names : list string) (acc : gmap string pyval),
    (forall n, n ∈ names -> is_Some (table_lookup n tbl)) ->
    exists m,
      units_loop tbl names acc = Return m
      /\ forall n, m !! n = if bool_decide (n ∈ names)
                            then unit_resolved <$> table_lookup n tbl
                            else acc !! n.
Proof.
  intros Hmeta. induction names as [|name rest IH]; intros acc Hin.
  - exists acc. split; [done|]. intros n.
    rewrite bool_decide_eq_false_2; [done | by intros H; inversion H].
  - cbn [units_loop].
    destruct (Hin name) as [c Hc]; [left|]. rewrite Hc.
    rewrite (column_unit_resolved c) by by apply (Hmeta name).
    destruct (IH (<[name := unit_resolved c]> acc)) as (m & Hm & Hlook).
    { intros n Hn. apply Hin. by right. }
    exists m. split; [done|]. intros n. rewrite Hlook.
    destruct (decide (n ∈ rest)) as [Hr|Hr].
    + rewrite (bool_decide_eq_true_2 (n ∈ rest)) by done.
      by rewrite (bool_decide_eq_true_2 (n ∈ name :: rest)) by by right.
    + rewrite (bool_decide_eq_false_2 (n ∈ rest)) by done.
      destruct (decide (n = name)) as [->|Hne].
      * rewrite (bool_decide_eq_true_2 (name ∈ name :: rest)) by left.
        by rewrite lookup_insert_eq, Hc.
      * rewrite (bool_decide_eq_false_2 (n ∈ name :: rest)).
        -- by rewrite lookup_insert_ne.
        -- intros H; inversion H; subst; done.
Qed.

(** C9 as the specification words it fails where the "UNITS" field
    of the time column holds an empty string: [units] gives [None] there,
    not the value of the field. *)
Lemma units_blank_field_counterexample :
  exists sd h1 m c,
    __init__ (PyTimeSeries blank_units_series) HNone sample_store = (Return sd, h1)
    /\ units sd = Return m
    /\ table_lookup "time" (data sd) = Some c
    /\ unit_as_specified c = PyStr EmptyString
    /\ m !! "time" = Some PyNone
    /\ m !! "time" <> Some (unit_as_specified c).
Proof.
  eexists _, _, _, _. split; [reflexivity|]. split; [reflexivity|].
  split; [reflexivity|]. split; [reflexivity|]. split; [reflexivity|].
  discriminate.
Qed.

(** C9, amended: the mapping [units] gives has an entry for each column of
    the container and no other; the entry is the unit attribute of the
    column when it has one, else the value of the "UNITS" field of its
    metadata when the field is there and its value is truthy, else [None].
    For a column other than the time it is the unit of the quantity
    stored. *)
Theorem units_resolution
    (input : pydata) (handler : pyhandler) (h : heap)
    (sd : ScienceData) (h1 : heap) (ops : list operation)
    (Hi : __init__ input handler h = (Return sd, h1)) :
  let self := fst (run ops (sd, h1)) in
  exists m,
    units self = Return m
    /\ (forall name, m !! name = unit_resolved <$> table_lookup name (data self))
    /\ (forall name c,
           name <> "time" -> table_lookup name (data self) = Some c ->
           exists u, cls c = Quantity u /\ m !! name = Some (PyUnit u)).
Proof.
  intros self.
  pose proof (init_invariant _ _ _ _ _ Hi) as Hinv.
  destruct (run_invariant ops (sd, h1) Hinv) as [(_ & _ & Hcols) _].
  fold self in Hcols.
  destruct (units_loop_spec (data self) (fun n c Hl => proj1 (Hcols n c Hl))
              (colnames (data self)) ∅) as (m & Hm & Hlook).
  { intros n. apply lookup_colnames. }
  exists m. split; [exact Hm|].
  assert (Hall : forall name,
             m !! name = unit_resolved <$> table_lookup name (data self)).
  { intros name. rewrite Hlook.
    destruct (decide (name ∈ colnames (data self))) as [Hin|Hnin].
    - by rewrite bool_decide_eq_true_2.
    - rewrite bool_decide_eq_false_2 by done. rewrite lookup_empty.
      rewrite lookup_colnames in Hnin.
      destruct (table_lookup name (data self)); [|done]. destruct Hnin; eauto. }
  split; [exact Hall|].
  intros name c Hnt Hl. rewrite Hall, Hl. simpl.
  destruct (Hcols name c Hl) as [_ Hq]. specialize (Hq Hnt).
  unfold is_Quantity in Hq. unfold unit_resolved, unit_attr.
  destruct (cls c) as [|u|]; [done| |done]. by exists u.
Qed.

Lemma units_resolution_witness :
  exists sd h1 m,
    __init__ (PyTimeSeries sample_series) HNone sample_store = (Return sd, h1)
    /\ units sd = Return m
    /\ m !! "flux" = Some (PyUnit (Unit "counts"))
    /\ m !! "time" = Some PyNone.
Proof.
  destruct (units_resolution (PyTimeSeries sample_series) HNone sample_store _ _ []
              eq_refl) as (m & Hm & Hall & _).
  eexists _, _, m. split; [reflexivity|]. split; [exact Hm|].
  split; apply Hall.
Defined.

(** * Further properties of the module *)

(** ** Item access, membership and iteration *)

Lemma contains_colnames (self : ScienceData) (name : string) :
  __contains__ self name = bool_decide (name ∈ colnames (data self)).
Proof.
  unfold __contains__. destruct (decide (name ∈ colnames (data self))) as [Hin|Hnin].
  - rewrite bool_decide_eq_true_2 by done.
    apply has_column_lookup. by apply lookup_colnames.
  - rewrite bool_decide_eq_false_2 by done.
    destruct (has_column name (data self)) eqn:Hc; [|done].
    apply has_column_lookup, lookup_colnames in Hc. done.
Qed.

Lemma iter_loop_spec (tbl : table) (names : list string) :
  (forall n, n ∈ names -> is_Some (table_lookup n tbl)) ->
  map fst (iter_loop tbl names) = names
  /\ Forall (fun e => table_lookup (fst e) tbl = Some (snd e)) (iter_loop tbl names).
Proof.
  induction names as [|name rest IH]; intros Hin; simpl; [by split|].
  destruct (Hin name) as [c Hc]; [left|]. rewrite Hc.
  destruct IH as [Hn Hall]; [intros n Hn; apply Hin; by right|].
  simpl. split; [by rewrite Hn | by constructor].
Qed.

Lemma iter_loop_agree (t1 t2 : table) (names : list string) :
  (forall n, n ∈ names -> table_lookup n t1 = table_lookup n t2) ->
  iter_loop t1 names = iter_loop t2 names.
Proof.
  induction names as [|name rest IH]; intros Hag; simpl; [done|].
  rewrite (Hag name) by left. rewrite IH; [done|].
  intros n Hn. apply Hag. by right.
Qed.

Lemma iter_loop_distinct (t : table) :
  NoDup (colnames t) -> iter_loop t (colnames t) = t.
Proof.
  induction t as [|[n c] t IH]; intros Hnd; [done|].
  change (colnames ((n, c) :: t)) with (n :: colnames t) in *.
  cbn [iter_loop table_lookup]. rewrite String.eqb_refl.
  apply NoDup_cons in Hnd as [Hn Hnd]. f_equal.
  transitivity (iter_loop t (colnames t)); [|by apply IH].
  apply iter_loop_agree. intros m Hm. cbn [table_lookup].
  destruct (String.eqb_spec n m) as [->|]; done.
Qed.

(** Item access agrees with membership: [self[name]] gives the stored
    column exactly when [name in self], and raises the key error naming
    the variable otherwise. *)
Theorem getitem_iff_contains (self : ScienceData) (name : string) :
  (__contains__ self name = true ->
   exists c, __getitem__ self name = Return c
             /\ table_lookup name (data self) = Some c)
  /\ (__contains__ self name = false ->
      __getitem__ self name
      = Raise (KeyError ("CDFWriter does not contain data variable " +:+ name)))
  /\ (__contains__ self name = true <-> exists c, __getitem__ self name = Return c).
Proof.
  assert (H1 : __contains__ self name = true ->
               exists c, __getitem__ self name = Return c
                         /\ table_lookup name (data self) = Some c).
  { intros Hc. unfold __getitem__. rewrite <- contains_colnames, Hc. simpl.
    apply has_column_lookup in Hc as [c Hc]. rewrite Hc. eauto. }
  assert (H2 : __contains__ self name = false ->
               __getitem__ self name
               = Raise (KeyError ("CDFWriter does not contain data variable " +:+ name))).
  { intros Hc. unfold __getitem__. by rewrite <- contains_colnames, Hc. }
  split; [exact H1|]. split; [exact H2|]. split.
  - intros Hc. destruct (H1 Hc) as (c & Hg & _). eauto.
  - intros [c Hg]. destruct (__contains__ self name); [done|].
    by rewrite H2 in Hg.
Qed.

Lemma getitem_iff_contains_witness :
  let self := {| data := sample_series; _handler := None |} in
  (exists c, __getitem__ self "flux" = Return c
             /\ table_lookup "flux" (data self) = Some c)
  /\ __getitem__ self "energy"
     = Raise (KeyError "CDFWriter does not contain data variable energy").
Proof.
  destruct (getitem_iff_contains {| data := sample_series; _handler := None |} "flux")
    as (Hin & _).
  destruct (getitem_iff_contains {| data := sample_series; _handler := None |} "energy")
    as (_ & Hout & _).
  split; [exact (Hin eq_refl) | exact (Hout eq_refl)].
Defined.

(** Iteration yields the column names in column order, one pair for each
    column counted by [len], and each pair holds the column item access
    gives under that name; when the names are distinct the pairs are the
    table itself. *)
Theorem iter_yields_items (self : ScienceData) :
  map fst (__iter__ self) = columns self
  /\ List.length (__iter__ self) = __len__ self
  /\ (forall name var_data,
         (name, var_data) ∈ __iter__ self -> __getitem__ self name = Return var_data)
  /\ (NoDup (columns self) -> __iter__ self = data self).
Proof.
  destruct (iter_loop_spec (data self) (colnames (data self))) as [Hn Hall].
  { intros n. apply lookup_colnames. }
  fold (__iter__ self) in Hn, Hall.
  split; [exact Hn|]. split.
  - unfold __len__. rewrite <- Hn. by rewrite length_map.
  - split.
    + intros name var_data Hin. rewrite Forall_forall in Hall.
      apply Hall in Hin. simpl in Hin. unfold __getitem__.
      rewrite bool_decide_eq_true_2 by (apply lookup_colnames; eauto).
      simpl. by rewrite Hin.
    + apply iter_loop_distinct.
Qed.

Lemma iter_yields_items_witness :
  __iter__ {| data := sample_series; _handler := None |} = sample_series.
Proof.
  destruct (iter_yields_items {| data := sample_series; _handler := None |})
    as (_ & _ & _ & H).
  apply H. unfold columns. simpl.
  repeat (constructor; [rewrite ?list_elem_of_In; simpl; intuition discriminate|]).
  constructor.
Defined.

(** ** When the constructor returns *)




(** ** Metadata through the constructor *)

(** Each column of a new container has the metadata of the source's
    column of that name, or an empty mapping when that column had none. *)
Theorem init_rederives_metadata
    (input : pydata) (src : table) (handler : pyhandler) (h : heap)
    (sd : ScienceData) (h1 : heap)
    (Hd : table_input input src)
    (Hi : __init__ input handler h = (Return sd, h1)) :
  forall name c,
    table_lookup name src = Some c ->
    exists c',
      __getitem__ sd name = Return c'
      /\ meta c' = Some (default ∅ (meta c)).
Proof.
  intros name c Hsrc.
  destruct (init_Return _ _ _ _ _ Hi) as (src0 & tbl & Hd0 & _ & _ & Hc & Hcols).
  rewrite (table_input_series _ _ _ Hd Hd0) in *. clear Hd0 src0.
  apply init_columns_Return in Hcols as (_ & _ & Hnames & Hl & _).
  pose proof (TimeSeries_copy_spec _ _ _ _ Hc) as (_ & _ & _ & Hcopy).
  specialize (Hcopy name). rewrite Hsrc in Hcopy.
  destruct Hcopy as (c' & Hc' & _).
  exists (with_meta (source_meta src name) c'). split.
  - unfold __getitem__. rewrite Hl, Hc'.
    rewrite bool_decide_eq_true_2; [done|].
    rewrite Hnames. apply lookup_colnames. eauto.
  - simpl. f_equal. unfold source_meta. rewrite Hsrc.
    destruct (meta c) as [m|]; simpl; [|done]. by rewrite (right_id_L ∅ (∪)).
Qed.

Lemma init_rederives_metadata_witness :
  exists sd h1 c' t,
    __init__ (PyTimeSeries annotated_series) HNone sample_store = (Return sd, h1)
    /\ __getitem__ sd "flux" = Return c'
    /\ meta c' = Some {["CATDESC" := PyStr "flux"]}
    /\ __getitem__ sd "time" = Return t
    /\ meta t = Some ∅.
Proof.
  eexists _, _.
  destruct (init_rederives_metadata (PyTimeSeries annotated_series) annotated_series
              HNone sample_store _ _ (or_introl eq_refl) eq_refl "flux" _ eq_refl)
    as (c' & Hg & Hm).
  destruct (init_rederives_metadata (PyTimeSeries annotated_series) annotated_series
              HNone sample_store _ _ (or_introl eq_refl) eq_refl "time" _ eq_refl)
    as (t & Hgt & Hmt).
  exists c', t. split; [reflexivity|]. split; [exact Hg|]. split; [exact Hm|].
  split; [exact Hgt | exact Hmt].
Defined.

(** ** Loading, then saving *)

Lemma load_Return
    (load_data : IOHandler -> string -> heap -> foreign pydata * heap)
    (filename : string) (handler : pyhandler) (h : heap)
    (sd : ScienceData) (h1 : heap) :
  load load_data filename handler h = (Return sd, h1) ->
  exists hd input h0,
    handler = HInstance hd
    /\ load_data hd filename h = (inl input, h0)
    /\ __init__ input handler h0 = (Return sd, h1)
    /\ _handler sd = Some hd.
Proof.
  unfold load. destruct handler as [|hd|]; [done| |done].
  destruct (load_data hd filename h) as [[input|what] h0] eqn:Hl; [|done].
  intros Hi. exists hd, input, h0. split; [done|]. split; [done|]. split; [done|].
  destruct (init_Return _ _ _ _ _ Hi) as (src & tbl & _ & _ & _ & _ & Hcols).
  apply init_columns_Return in Hcols as (_ & Hh & _). simpl in Hh. congruence.
Qed.

(** A container [read] returns keeps the handler of the file's format, so
    that saving it makes one call of that handler's [save_data] on the
    container and the given path. *)
Theorem read_then_save
    (load_data : IOHandler -> string -> heap -> foreign pydata * heap)
    (save_data : IOHandler -> ScienceData -> string -> foreign unit)
    (filename : string) (h : heap) (sd : ScienceData) (h1 : heap)
    (Hr : read load_data filename h = (Return sd, h1)) :
  exists hd,
    ((snd (posixpath.splitext filename) = ".cdf" /\ hd = CDFHandler)
     \/ (snd (posixpath.splitext filename) = ".nc" /\ hd = NetCDFHandler)
     \/ (snd (posixpath.splitext filename) = ".fits" /\ hd = FITSHandler))
    /\ _handler sd = Some hd
    /\ invariant sd
    /\ forall output_path log,
        save save_data sd output_path log
        = (propagate (save_data hd sd output_path),
           (sd, log ++ [save_data_call hd sd output_path])).
Proof.
  unfold read in Hr.
  assert (Hload : forall hd0,
             load load_data filename (HInstance hd0) h = (Return sd, h1) ->
             _handler sd = Some hd0 /\ invariant sd).
  { intros hd0 Hl. apply load_Return in Hl as (hd & input & h0 & [= <-] & _ & Hi & Hh).
    split; [done|]. by apply (init_invariant _ _ _ _ _ Hi). }
  assert (Hsave : forall hd0, _handler sd = Some hd0 ->
             forall output_path log,
               save save_data sd output_path log
               = (propagate (save_data hd0 sd output_path),
                  (sd, log ++ [save_data_call hd0 sd output_path]))).
  { intros hd0 Hh output_path log. unfold save. by rewrite Hh. }
  destruct (String.eqb_spec (snd (posixpath.splitext filename)) ".cdf") as [He|_].
  { destruct (Hload _ Hr) as [Hh Hinv]. exists CDFHandler. eauto 10. }
  destruct (String.eqb_spec (snd (posixpath.splitext filename)) ".nc") as [He|_].
  { destruct (Hload _ Hr) as [Hh Hinv]. exists NetCDFHandler. eauto 10. }
  destruct (String.eqb_spec (snd (posixpath.splitext filename)) ".fits") as [He|_].
  { destruct (Hload _ Hr) as [Hh Hinv]. exists FITSHandler. eauto 10. }
  done.
Qed.

Lemma read_then_save_witness :
  exists sd h1,
    read sample_load_data "run1.nc" [] = (Return sd, h1)
    /\ save sample_save_data sd "out" []
       = (Return tt, (sd, [save_data_call NetCDFHandler sd "out"])).
Proof.
  eexists _, _. split; [reflexivity|].
  destruct (read_then_save sample_load_data sample_save_data "run1.nc" [] _ _ eq_refl)
    as (hd & Hfmt & _ & _ & Hsave).
  destruct Hfmt as [[He _]|[[_ ->]|[He _]]]; [discriminate He| |discriminate He].
  apply Hsave.
Defined.

(** ** Where the buffers of a container lie *)

Lemma Forall_buf_set_meta (P : nat -> Prop) (name : string) (m : gmap string pyval)
    (t : table) :
  Forall (fun e => P (buf (snd e))) t ->
  Forall (fun e => P (buf (snd e))) (table_set_meta name m t).
Proof.
  intros Ht. induction Ht as [|[n c0] t Hx Ht IH]; simpl; [constructor|].
  destruct (String.eqb n name); constructor; done.
Qed.

Lemma Forall_buf_replace (P : nat -> Prop) (name : string) (c : colobj) (t : table) :
  Forall (fun e => P (buf (snd e))) t -> P (buf c) ->
  Forall (fun e => P (buf (snd e))) (table_replace name c t).
Proof.
  intros Ht Hc. induction Ht as [|[n c0] t Hx Ht IH]; simpl; [constructor|].
  destruct (String.eqb n name); constructor; done.
Qed.

Lemma copy_bufs (t : table) :
  forall (h : heap) (t' : table) (h' : heap),
    TimeSeries_copy t h = (t', h') ->
    Forall (fun e => List.length h <= buf (snd e) < List.length h') t'.
Proof.
  induction t as [|[name c] t IH]; intros h t' h' H; simpl in H.
  - inversion H; subst. constructor.
  - unfold copy_column, alloc in H.
    destruct (TimeSeries_copy t (h ++ [deref h (buf c)])) as [rest' h2] eqn:E.
    inversion H; subst; clear H.
    pose proof (TimeSeries_copy_spec _ _ _ _ E) as (_ & _ & Hlen & _).
    apply IH in E. rewrite length_app in *. simpl in *.
    constructor; [simpl; lia|].
    eapply Forall_impl; [exact E|]. simpl. intros e He. lia.
Qed.

Lemma init_columns_store (src : table) (handler : pyhandler) (tbl : table)
    (h : heap) (r : outcome ScienceData) (h1 : heap) :
  init_columns src handler tbl h = (r, h1) ->
  h1 = h
  /\ forall sd, r = Return sd ->
       forall P : nat -> Prop,
         Forall (fun e => P (buf (snd e))) tbl ->
         Forall (fun e => P (buf (snd e))) (data sd).
Proof.
  unfold init_columns. destruct (List.find _ _).
  { intros [= <- <-]. by split. }
  destruct (handler_setter handler).
  2:{ intros [= <- <-]. by split. }
  intros [= <- <-]. split; [done|]. intros sd [= <-] P Ht. simpl.
  set (f := fun (t : table) (col : string) => _).
  assert (Hf : forall names t,
             Forall (fun e => P (buf (snd e))) t ->
             Forall (fun e => P (buf (snd e))) (fold_left f names t)).
  { induction names as [|col names IH]; intros t Hall; simpl; [done|].
    apply IH. unfold f. destruct (negb _); [by apply Forall_buf_set_meta | done]. }
  apply Hf. by apply Forall_buf_set_meta.
Qed.

(** Whatever its outcome, the constructor only adds buffers to the store;
    the columns of the container it returns lie over the added ones. *)
Lemma init_store (input : pydata) (handler : pyhandler) (h : heap)
    (r : outcome ScienceData) (h1 : heap) :
  __init__ input handler h = (r, h1) ->
  (exists ext, h1 = h ++ ext)
  /\ forall sd, r = Return sd ->
       Forall (fun e => List.length h <= buf (snd e) < List.length h1) (data sd).
Proof.
  intros Hi.
  assert (Hnil : exists ext : heap, h = h ++ ext) by (exists []; by rewrite app_nil_r).
  destruct input as [src|src|].
  3:{ simpl in Hi. injection Hi as <- <-. by split. }
  2:{ rewrite init_Table in Hi.
      destruct (List.length src <? 2)%nat; [injection Hi as <- <-; by split|].
      destruct (negb (has_column "time" src)); injection Hi as <- <-; by split. }
  rewrite init_series in Hi.
  destruct (List.length src <? 2)%nat; [injection Hi as <- <-; by split|].
  destruct (negb (has_column "time" src)); [injection Hi as <- <-; by split|].
  destruct (TimeSeries_copy src h) as [tbl h2] eqn:Hc.
  pose proof (TimeSeries_copy_spec _ _ _ _ Hc) as (_ & Hext & _).
  pose proof (copy_bufs _ _ _ _ Hc) as Hb.
  apply init_columns_store in Hi as [-> Hsd].
  split; [exact Hext|].
  intros sd Hr.
  exact (Hsd sd Hr (fun b => List.length h <= b < List.length h2) Hb).
Qed.

(** A public mutation only adds buffers to the store, and the columns of
    the container stay over buffers of the store past any bound they were
    past before. *)
Lemma step_store (k : nat) (st : ScienceData * heap) (op : operation) :
  k <= List.length (snd st) ->
  Forall (fun e => k <= buf (snd e) < List.length (snd st)) (data (fst st)) ->
  (exists ext, snd (step st op) = snd st ++ ext)
  /\ Forall (fun e => k <= buf (snd e) < List.length (snd (step st op)))
            (data (fst (step st op))).
Proof.
  destruct st as [self h]. simpl. intros Hk Hall.
  assert (Hnil : exists ext : heap, h = h ++ ext) by (exists []; by rewrite app_nil_r).
  destruct op as [name value|value]; simpl.
  - unfold __setitem__, _add_variable.
    destruct (rejected value); simpl; [done|].
    destruct (table_setitem name value (data self) h) as [[t' h']|] eqn:Hset; [|done].
    apply table_setitem_inl in Hset as (rows & _ & -> & ->). simpl.
    split; [eauto|]. rewrite length_app. simpl.
    assert (Hold : Forall (fun e => k <= buf (snd e) < List.length h + 1) (data self)).
    { eapply Forall_impl; [exact Hall|]. simpl. intros e He. lia. }
    assert (Hnew : Forall (fun e => k <= buf (snd e) < List.length h + 1)
                     (if has_column name (data self)
                      then table_replace name
                             {| cls := cls value; buf := List.length h; meta := meta value |}
                             (data self)
                      else data self
                           ++ [(name, {| cls := cls value; buf := List.length h;
                                         meta := meta value |})])).
    { destruct (has_column name (data self)).
      - apply (Forall_buf_replace (fun b => k <= b < List.length h + 1)); [done|].
        simpl. lia.
      - apply Forall_app. split; [done|]. constructor; [simpl; lia | constructor]. }
    destruct (meta value);
      repeat apply (Forall_buf_set_meta (fun b => k <= b < List.length h + 1));
      exact Hnew.
  - destruct (handler_setter value); simpl; split; done.
Qed.

Lemma run_store (k : nat) (ops : list operation) :
  forall st,
    k <= List.length (snd st) ->
    Forall (fun e => k <= buf (snd e) < List.length (snd st)) (data (fst st)) ->
    (exists ext, snd (run ops st) = snd st ++ ext)
    /\ Forall (fun e => k <= buf (snd e) < List.length (snd (run ops st)))
              (data (fst (run ops st))).
Proof.
  unfold run. induction ops as [|op ops IH]; intros st Hk Hall; simpl.
  - split; [exists []; by rewrite app_nil_r | done].
  - destruct (step_store k st op Hk Hall) as [[ext Hext] Hall'].
    destruct (IH (step st op)) as [[ext' Hext'] Hfin]; [|done|].
    { rewrite Hext, length_app. lia. }
    split; [|done]. exists (ext ++ ext'). by rewrite Hext', Hext, app_assoc.
Qed.

(** ** The source is out of reach of the container *)

(** The constructor, whatever its outcome, leaves every buffer the store
    had as it was; and nothing done to the container afterwards (item
    and handler assignments, then writes through its columns, column
    assignments and removals on its table) changes one of them.  So the
    table a container was built from keeps its values. *)
Theorem source_out_of_reach
    (input : pydata) (handler : pyhandler) (h : heap)
    (r : outcome ScienceData) (h1 : heap)
    (Hi : __init__ input handler h = (r, h1)) :
  (forall l, l < List.length h -> deref h1 l = deref h l)
  /\ forall sd, r = Return sd ->
       forall (ops : list operation) (mus : list mutation) (l : loc),
         l < List.length h ->
         deref (snd (mutate_all mus (data (fst (run ops (sd, h1))),
                                     snd (run ops (sd, h1))))) l
         = deref h l.
Proof.
  destruct (init_store _ _ _ _ _ Hi) as [[ext ->] Hall].
  split; [intros l Hl; by apply deref_app_l|].
  intros sd -> ops mus l Hl.
  destruct (run_store (List.length h) ops (sd, h ++ ext)) as [[ext' Hext] Hfin].
  { simpl. rewrite length_app. lia. }
  { by apply Hall. }
  simpl in Hext. unfold deref. f_equal.
  rewrite (mutate_all_frame 0 (List.length h)); [| | |lia].
  - rewrite Hext, <- app_assoc. by apply lookup_app_l.
  - unfold outside. eapply Forall_impl; [exact Hfin|]. simpl. intros e He. lia.
  - rewrite Hext, !length_app. lia.
Qed.

Lemma source_out_of_reach_witness :
  exists sd h1,
    __init__ (PyTimeSeries sample_series) HNone sample_store = (Return sd, h1)
    /\ let st := run [set_item "flux" (mkcol (Quantity (Unit "counts")) 0 None)]
                     (sd, h1) in
       let after := mutate_all [write_element "flux" 0 99%Z] (data (fst st), snd st) in
       (exists c, table_lookup "flux" (fst after) = Some c
                  /\ deref (snd after) (buf c) = [99; 10; 20; 30; 40; 50; 60; 70]%Z)
       /\ deref (snd after) 1 = [3; 1; 4; 1; 5; 9; 2; 6]%Z.
Proof.
  eexists _, _. split; [reflexivity|]. split.
  - eexists. split; reflexivity.
  - destruct (source_out_of_reach (PyTimeSeries sample_series) HNone sample_store _ _
                eq_refl) as [_ H].
    apply (H _ eq_refl [set_item "flux" (mkcol (Quantity (Unit "counts")) 0 None)]
             [write_element "flux" 0 99%Z] 1).
    repeat constructor.
Defined.

(** ** The table of a container is a valid input *)

Lemma invariant_valid (self : ScienceData) :
  invariant self -> valid_table (data self) = true.
Proof.
  intros (Ht & Hlen & Hcols). unfold valid_table.
  rewrite Ht, andb_true_r. apply andb_true_iff. split; [by apply Nat.leb_le|].
  apply forallb_forall. intros n Hn. unfold lacks_unit.
  destruct (String.eqb_spec n "time") as [->|Hnt]; [done|]. simpl.
  apply list_elem_of_In, lookup_colnames in Hn as [c Hc]. rewrite Hc.
  destruct (Hcols n c Hc) as [_ Hq]. specialize (Hq Hnt).
  unfold is_Quantity in Hq. unfold carries_unit, unit_of.
  by destruct (cls c).
Qed.

(** A container that was constructed and then used can always be wrapped
    again: its table passes the constructor's checks, and the new
    container has the same column names and, for each column other than
    the time, the same class and unit, the same metadata and the same
    values. *)
Theorem container_table_valid
    (input : pydata) (handler : pyhandler) (h : heap)
    (sd : ScienceData) (h1 : heap) (ops : list operation)
    (Hi : __init__ input handler h = (Return sd, h1)) :
  let self := fst (run ops (sd, h1)) in
  let store := snd (run ops (sd, h1)) in
  valid_table (data self) = true
  /\ forall handler',
      handler' <> HForeign ->
      exists sd' h',
        __init__ (PyTimeSeries (data self)) handler' store = (Return sd', h')
        /\ columns sd' = columns self
        /\ forall name c,
            name <> "time" -> table_lookup name (data self) = Some c ->
            exists c',
              __getitem__ sd' name = Return c'
              /\ cls c' = cls c
              /\ meta c' = meta c
              /\ deref h' (buf c') = deref store (buf c).
Proof.
  intros self store.
  pose proof (init_invariant _ _ _ _ _ Hi) as Hinv0.
  destruct (run_invariant ops (sd, h1) Hinv0) as [Hinv _]. fold self in Hinv.
  pose proof (invariant_valid self Hinv) as Hv.
  split; [exact Hv|]. intros handler' Hh.
  destruct (init_store _ _ _ _ _ Hi) as [[ext Hext] Hall0].
  destruct (run_store (List.length h) ops (sd, h1)) as [_ Hfin].
  { simpl. rewrite Hext, length_app. lia. }
  { by apply Hall0. }
  fold self store in Hfin.
  destruct (init_valid (PyTimeSeries (data self)) (data self) handler' store
              eq_refl Hv Hh) as (sd' & tbl & h' & Hi' & Hc & Hcols).
  exists sd', h'. split; [exact Hi'|].
  apply init_columns_Return in Hcols as (_ & _ & Hnames & Hl & _).
  pose proof (TimeSeries_copy_spec _ _ _ _ Hc) as (Hn & _ & _ & Hcopy).
  split; [unfold columns; by rewrite Hnames, Hn|].
  intros name c Hnt Hsrc. specialize (Hcopy name). rewrite Hsrc in Hcopy.
  destruct Hcopy as (c' & Hc' & Hcls & _ & Hval).
  exists (with_meta (source_meta (data self) name) c').
  unfold __getitem__. rewrite Hl, Hc'.
  rewrite bool_decide_eq_true_2.
  2:{ rewrite Hnames. apply lookup_colnames. eauto. }
  simpl. split; [done|].
  destruct Hinv as (_ & _ & Hcols). destruct (Hcols name c Hsrc) as [[m Hm] Hq].
  specialize (Hq Hnt). split; [|split].
  - rewrite Hcls. unfold stored_class.
    destruct (String.eqb_spec name "time"); [done|].
    unfold is_Quantity in Hq. by destruct (cls c).
  - unfold source_meta. rewrite Hsrc, Hm. by rewrite (right_id_L ∅ (∪)).
  - apply Hval. apply lookup_elem in Hsrc.
    rewrite Forall_forall in Hfin. apply Hfin in Hsrc. simpl in Hsrc. lia.
Qed.

Lemma container_table_valid_witness :
  exists sd h1,
    __init__ (PyTimeSeries annotated_series) HNone sample_store = (Return sd, h1)
    /\ let st := run [set_item "counts" (mkcol (Quantity (Unit "ct")) 1 None)] (sd, h1) in
       valid_table (data (fst st)) = true
       /\ exists sd' h',
           __init__ (PyTimeSeries (data (fst st))) HNone (snd st) = (Return sd', h')
           /\ columns sd' = ["time"; "flux"; "energy"; "counts"].
Proof.
  eexists _, _. split; [reflexivity|].
  destruct (container_table_valid (PyTimeSeries annotated_series) HNone sample_store
              _ _ [set_item "counts" (mkcol (Quantity (Unit "ct")) 1 None)] eq_refl)
    as [Hv Hre].
  split; [exact Hv|].
  destruct (Hre HNone) as (sd' & h' & Hi' & Hcols & _); [discriminate|].
  exists sd', h'. split; [exact Hi' | exact Hcols].
Defined.

(** ** Assigning, then reading *)

Lemma setitem_Return (self : ScienceData) (name : string) (value : colobj) (h : heap)
    (self' : ScienceData) (h' : heap) :
  __setitem__ self name value h = (Return tt, (self', h')) ->
  rejected value = false
  /\ exists rows,
      rows_to_store name value (data self) h = inl rows
      /\ h' = h ++ [rows]
      /\ colnames (data self')
         = (if has_column name (data self) then colnames (data self)
            else colnames (data self) ++ [name])
      /\ forall n, table_lookup n (data self')
                   = if String.eqb n name
                     then Some {| cls := cls value; buf := List.length h;
                                  meta := Some ∅ |}
                     else table_lookup n (data self).
Proof.
  unfold __setitem__. intros Hset.
  apply add_variable_Return in Hset as (Hrej & rows & Hrows & -> & _ & Hnames & Hl).
  split; [done|]. exists rows. split; [done|]. split; [done|]. split; [exact Hnames|].
  intros n. rewrite Hl. destruct (String.eqb n name); [|done].
  destruct (meta value); [|done]. by rewrite (left_id_L ∅ (∪)).
Qed.





(** An item assignment under a name other than "time" leaves the row count
    [shape] reports as it was, and adds one to its column count exactly
    when the name was new. *)
Theorem setitem_keeps_rows
    (self : ScienceData) (name : string) (value : colobj) (h : heap)
    (self' : ScienceData) (h' : heap)
    (Hset : __setitem__ self name value h = (Return tt, (self', h')))
    (Hname : name <> "time")
    (Ha : table_allocated (data self) h = true) :
  fst (shape self' h') = fst (shape self h)
  /\ snd (shape self' h')
     = (if __contains__ self name then snd (shape self h) else S (snd (shape self h)))
  /\ time self' = time self.
Proof.
  destruct (setitem_Return _ _ _ _ _ _ Hset) as (_ & rows & _ & -> & Hnames & Hl).
  assert (Ht : table_lookup "time" (data self') = table_lookup "time" (data self)).
  { rewrite Hl. destruct (String.eqb_spec "time" name); [congruence | done]. }
  unfold shape, time, has_column. rewrite Ht. simpl. split; [|split; [|done]].
  - destruct (table_lookup "time" (data self)) as [t|] eqn:Htime; [|done].
    f_equal. apply deref_app_l. by apply (allocated_lookup (data self) h "time").
  - rewrite Hnames. unfold __contains__.
    destruct (has_column name (data self)); [done|].
    rewrite length_app. simpl. lia.
Qed.

Lemma setitem_keeps_rows_witness :
  exists self' h',
    __setitem__ {| data := sample_series; _handler := None |} "energy"
      (mkcol (Quantity (Unit "keV")) 0 None) sample_store
    = (Return tt, (self', h'))
    /\ shape self' h' = (8, 3).
Proof.
  eexists _, _. split; [reflexivity|].
  destruct (setitem_keeps_rows {| data := sample_series; _handler := None |} "energy"
              (mkcol (Quantity (Unit "keV")) 0 None) sample_store _ _ eq_refl)
    as (Hr & Hc & _); [discriminate | reflexivity|].
  reflexivity.
Defined.

(** ** Distinct column names *)

(** A container built from a table with distinct column names has
    distinct column names, and keeps them distinct through item and
    handler assignments; [len] then counts names. *)
Theorem names_stay_distinct
    (input : pydata) (src : table) (handler : pyhandler) (h : heap)
    (sd : ScienceData) (h1 : heap) (ops : list operation)
    (Hd : table_input input src)
    (Hnd : NoDup (colnames src))
    (Hi : __init__ input handler h = (Return sd, h1)) :
  columns sd = colnames src
  /\ NoDup (columns (fst (run ops (sd, h1))))
  /\ __iter__ (fst (run ops (sd, h1))) = data (fst (run ops (sd, h1))).
Proof.
  destruct (init_Return _ _ _ _ _ Hi) as (src0 & tbl & Hd0 & _ & _ & Hc & Hcols).
  rewrite (table_input_series _ _ _ Hd Hd0) in *. clear Hd0 src0.
  apply init_columns_Return in Hcols as (_ & _ & Hnames & _).
  pose proof (TimeSeries_copy_spec _ _ _ _ Hc) as (Hn & _).
  assert (H0 : columns sd = colnames src) by (unfold columns; congruence).
  split; [exact H0|].
  assert (Hrun : forall ops st, NoDup (columns (fst st)) ->
                                NoDup (columns (fst (run ops st)))).
  { unfold run. clear. induction ops as [|op ops IH]; intros st Hst; simpl; [done|].
    apply IH. destruct st as [self hp]. destruct op as [name value|value]; simpl.
    - destruct (__setitem__ self name value hp) as [[[]|e] [self' h']] eqn:Hset.
      + destruct (setitem_Return _ _ _ _ _ _ Hset) as (_ & rows & _ & _ & Hnames & _).
        simpl. unfold columns in *. rewrite Hnames.
        destruct (has_column name (data self)) eqn:Hhas; [done|].
        apply NoDup_app. split; [done|]. split; [|apply NoDup_singleton].
        intros x Hx Hx'. apply list_elem_of_singleton in Hx'. subst x.
        apply lookup_colnames, has_column_lookup in Hx. congruence.
      + unfold __setitem__ in Hset. apply add_variable_Raise in Hset.
        by injection Hset as <- _.
    - by destruct (handler_setter value). }
  assert (Hfin : NoDup (columns (fst (run ops (sd, h1))))).
  { apply Hrun. simpl. by rewrite H0. }
  split; [exact Hfin|]. by apply iter_loop_distinct.
Qed.

Lemma names_stay_distinct_witness :
  exists sd h1,
    __init__ (PyTimeSeries sample_series) HNone sample_store = (Return sd, h1)
    /\ NoDup (columns (fst (run [set_item "flux" (mkcol (Quantity (Unit "ct")) 0 None);
                                 set_item "energy" (mkcol (Quantity (Unit "keV")) 0 None)]
                                (sd, h1)))).
Proof.
  eexists _, _. split; [reflexivity|].
  apply (names_stay_distinct (PyTimeSeries sample_series) sample_series HNone
           sample_store _ _ _ (or_introl eq_refl)); [|reflexivity].
  simpl. repeat (constructor; [rewrite ?list_elem_of_In; simpl; intuition discriminate|]).
  constructor.
Defined.

(** ** File names without an extension *)

Lemma all_dots_lacks_slash (s : string) : all_dots s = true -> lacks "/" s = true.
Proof.
  induction s as [|a s IH]; simpl; [done|].
  intros [Ha Hs]%andb_true_iff. apply Ascii.eqb_eq in Ha. subst a.
  by rewrite IH.
Qed.

Lemma rfind_from_dots (s : string) :
  all_dots s = true -> s <> EmptyString ->
  forall i last,
    posixpath.rfind_from "." s i last = (i + Z.of_nat (String.length s) - 1)%Z.
Proof.
  induction s as [|a s IH]; [done|]. simpl all_dots.
  intros [Ha Hs]%andb_true_iff _ i last. apply Ascii.eqb_eq in Ha. subst a.
  cbn [posixpath.rfind_from]. rewrite Ascii.eqb_refl.
  destruct s as [|b s'].
  - simpl. lia.
  - rewrite IH by done. simpl String.length. lia.
Qed.

Lemma meets_non_dot_dots (dots post : string) :
  all_dots dots = true ->
  forall pre n,
    n <= String.length dots ->
    posixpath.meets_non_dot (pre +:+ dots +:+ post) (String.length pre) n = false.
Proof.
  induction dots as [|a dots IH]; intros Hd pre n Hn.
  - simpl in Hn. by replace n with 0 by lia.
  - simpl in Hd. apply andb_true_iff in Hd as [Ha Hd].
    apply Ascii.eqb_eq in Ha. subst a.
    destruct n as [|n]; [done|]. cbn [posixpath.meets_non_dot].
    change (String "." dots +:+ post) with (String "."%char (dots +:+ post)).
    rewrite get_app, Ascii.eqb_refl.
    specialize (IH Hd (pre +:+ ".") n).
    rewrite append_assoc, length_append in IH. simpl in IH.
    rewrite Nat.add_1_r in IH. apply IH. simpl in Hn. lia.
Qed.

(** A file name whose last component is only dots followed by a part with
    no dot in it (a name without extension, a hidden file such as
    ".cdf") has an empty extension: [read] and [validate] refuse it. *)
Theorem no_extension_unsupported
    (load_data : IOHandler -> string -> heap -> foreign pydata * heap)
    (validator_validate : FileValidator -> string -> foreign (list string))
    (dir dots rest : string) (h : heap)
    (Hdir : directory_part dir)
    (Hdots : all_dots dots = true)
    (Hrest1 : lacks "." rest = true)
    (Hrest2 : lacks "/" rest = true) :
  let filename := dir +:+ dots +:+ rest in
  posixpath.splitext filename = (filename, EmptyString)
  /\ read load_data filename h = (Raise (UnsupportedFormat EmptyString), h)
  /\ validate validator_validate filename = Raise (UnsupportedFormat EmptyString).
Proof.
  intros filename.
  assert (Hsplit : posixpath.splitext filename = (filename, EmptyString)).
  { assert (Hsep : (posixpath.rfind filename "/" + 1
                    = Z.of_nat (String.length dir))%Z).
    { unfold posixpath.rfind, filename. rewrite rfind_from_app.
      rewrite rfind_from_lacks.
      2:{ rewrite lacks_app, Hrest2. by rewrite all_dots_lacks_slash. }
      destruct Hdir as [->|[d ->]]; [done|].
      rewrite rfind_from_app. simpl. rewrite length_append. simpl. lia. }
    pose proof (rfind_from_bounds "." dir 0 (-1) ltac:(lia)) as Hb.
    assert (Hdot : posixpath.rfind filename "."
                   = posixpath.rfind_from "." dots (Z.of_nat (String.length dir))
                       (posixpath.rfind_from "." dir 0 (-1))).
    { unfold posixpath.rfind, filename. rewrite !rfind_from_app.
      by rewrite (rfind_from_lacks _ _ Hrest1). }
    unfold posixpath.splitext. fold filename.
    destruct dots as [|a dots'].
    - simpl in Hdot. rewrite Hdot.
      destruct (Z.ltb_spec (posixpath.rfind filename "/")
                  (posixpath.rfind_from "." dir 0 (-1))); [lia | done].
    - rewrite rfind_from_dots in Hdot by done. rewrite Hdot.
      replace (Z.to_nat (posixpath.rfind filename "/" + 1)) with (String.length dir)
        by lia.
      rewrite (meets_non_dot_dots (String a dots') rest Hdots dir).
      + by rewrite andb_false_r.
      + simpl String.length. lia. }
  split; [exact Hsplit|].
  unfold read, validate. rewrite Hsplit. by split.
Qed.

Lemma no_extension_unsupported_witness :
  read sample_load_data "data/.cdf" sample_store
  = (Raise (UnsupportedFormat EmptyString), sample_store)
  /\ validate sample_validate "README" = Raise (UnsupportedFormat EmptyString).
Proof.
  split.
  - destruct (no_extension_unsupported sample_load_data sample_validate
                "data/" "." "cdf" sample_store) as (_ & H & _);
      [right; by exists "data" | reflexivity | reflexivity | reflexivity |].
    exact H.
  - destruct (no_extension_unsupported sample_load_data sample_validate
                EmptyString EmptyString "README" sample_store) as (_ & _ & H);
      [by left | reflexivity | reflexivity | reflexivity |].
    exact H.
Defined.

Lemma read_by_suffix_witness :
  read sample_load_data "data/run1.fits" sample_store
  = load sample_load_data "data/run1.fits" (HInstance FITSHandler) sample_store
  /\ read sample_load_data "data/run1.CDF" sample_store
     = (Raise (UnsupportedFormat ".CDF"), sample_store).
Proof.
  destruct (read_by_suffix sample_load_data "data/" "run1" sample_store)
    as (_ & _ & Hfits & Hupper); [reflexivity | reflexivity | discriminate|].
  split; [exact Hfits | exact Hupper].
Defined.

(** ** The instrument tables of the package *)

Lemma dict_snoc {A} (pairs : list (string * A)) (k : string) (v : A) :
  dict (pairs ++ [(k, v)]) = <[k := v]> (dict pairs).
Proof. unfold dict. by rewrite fold_left_app. Qed.

(** [dict(zip(keys, values))] over distinct keys gives each key the value
    at its position, and nothing to any other key. *)
Lemma dict_zip_lookup {A} (keys : list string) (values : list A) :
  NoDup keys -> List.length keys = List.length values ->
  (forall i k, keys !! i = Some k -> dict (zip keys values) !! k = values !! i)
  /\ (forall k, k ∉ keys -> dict (zip keys values) !! k = None).
Proof.
  revert values. induction keys as [|k0 keys IH] using rev_ind; intros values Hnd Hlen.
  - split; [intros i k Hi; by rewrite lookup_nil in Hi | intros k _; apply lookup_empty].
  - destruct (decide (values = [])) as [->|Hne].
    { rewrite length_app in Hlen. simpl in Hlen. lia. }
    destruct (exists_last Hne) as (values' & v0 & ->).
    rewrite !length_app in Hlen. simpl in Hlen.
    assert (Hlen' : List.length keys = List.length values') by lia.
    rewrite zip_with_app by done. simpl. rewrite dict_snoc.
    apply NoDup_app in Hnd as (Hnd & Hfresh & _).
    destruct (IH values' Hnd Hlen') as [Hin Hout].
    split.
    + intros i k Hi. destruct (decide (i < List.length keys)) as [Hlt|Hge].
      * rewrite lookup_app_l in Hi by done. rewrite lookup_app_l by lia.
        rewrite lookup_insert_ne; [by apply Hin|].
        intros ->. apply (Hfresh k); [by apply list_elem_of_lookup_2 in Hi | left].
      * pose proof (lookup_lt_Some _ _ _ Hi) as Hb.
        rewrite length_app in Hb. simpl in Hb.
        assert (i = List.length keys) by lia. subst i.
        rewrite list_lookup_middle in Hi by done. injection Hi as <-.
        rewrite lookup_insert_eq. by rewrite Hlen', list_lookup_middle.
    + intros k Hk. rewrite lookup_insert_ne.
      * apply Hout. intros Hk'. apply Hk. apply elem_of_app. by left.
      * intros ->. apply Hk. apply elem_of_app. right. left.
Qed.

(** Each instrument name has the short name and the target name at its
    position in the lists, a name that is no instrument has neither, and
    two instruments never share a short name or a target name. *)
Theorem instrument_tables :
  (forall i name,
      INST_NAMES !! i = Some name ->
      INST_TO_SHORTNAME !! name = INST_SHORTNAMES !! i
      /\ INST_TO_TARGETNAME !! name = INST_TARGETNAMES !! i
      /\ is_Some (INST_TO_SHORTNAME !! name)
      /\ is_Some (INST_TO_TARGETNAME !! name))
  /\ (forall name,
         name ∉ INST_NAMES ->
         INST_TO_SHORTNAME !! name = None /\ INST_TO_TARGETNAME !! name = None)
  /\ (forall n1 n2 short,
         INST_TO_SHORTNAME !! n1 = Some short -> INST_TO_SHORTNAME !! n2 = Some short ->
         n1 = n2)
  /\ (forall n1 n2 target,
         INST_TO_TARGETNAME !! n1 = Some target -> INST_TO_TARGETNAME !! n2 = Some target ->
         n1 = n2).
Proof.
  assert (Hnd : NoDup INST_NAMES).
  { unfold INST_NAMES.
    repeat (constructor; [rewrite ?list_elem_of_In; simpl; intuition discriminate|]).
    constructor. }
  destruct (dict_zip_lookup INST_NAMES INST_SHORTNAMES Hnd eq_refl) as [Hs Hs'].
  destruct (dict_zip_lookup INST_NAMES INST_TARGETNAMES Hnd eq_refl) as [Ht Ht'].
  fold INST_TO_SHORTNAME in Hs, Hs'. fold INST_TO_TARGETNAME in Ht, Ht'.
  assert (Hpos : forall A (m : gmap string A) (values : list A),
             (forall i k, INST_NAMES !! i = Some k -> m !! k = values !! i) ->
             (forall k, k ∉ INST_NAMES -> m !! k = None) ->
             forall n v, m !! n = Some v ->
                         exists i, INST_NAMES !! i = Some n /\ values !! i = Some v).
  { intros A m values Hin Hout n v Hn.
    destruct (decide (n ∈ INST_NAMES)) as [Hmem|Hmem].
    - apply list_elem_of_lookup in Hmem as [i Hi]. exists i. split; [done|].
      by rewrite <- (Hin i n Hi).
    - rewrite (Hout n Hmem) in Hn. done. }
  split; [|split; [|split]].
  - intros i name Hi. rewrite (Hs i name Hi), (Ht i name Hi).
    split; [done|]. split; [done|].
    pose proof (lookup_lt_Some _ _ _ Hi) as Hb.
    split; apply lookup_lt_is_Some; simpl in *; lia.
  - intros name Hn. by rewrite Hs', Ht'.
  - intros n1 n2 short H1 H2.
    destruct (Hpos _ _ _ Hs Hs' n1 short H1) as (i & Hi & Hv).
    destruct (Hpos _ _ _ Hs Hs' n2 short H2) as (j & Hj & Hw).
    do 5 (destruct i as [|i]; [do 5 (destruct j as [|j]; [simpl in *; congruence|]);
                               done|]).
    done.
  - intros n1 n2 target H1 H2.
    destruct (Hpos _ _ _ Ht Ht' n1 target H1) as (i & Hi & Hv).
    destruct (Hpos _ _ _ Ht Ht' n2 target H2) as (j & Hj & Hw).
    do 5 (destruct i as [|i]; [do 5 (destruct j as [|j]; [simpl in *; congruence|]);
                               done|]).
    done.
Qed.

Lemma instrument_tables_witness :
  INST_TO_SHORTNAME !! "nemisis" = Some "nms"
  /\ INST_TO_TARGETNAME !! "nemisis" = Some "MAG"
  /\ INST_TO_SHORTNAME !! "mag" = None.
Proof.
  destruct instrument_tables as (Hin & Hout & _).
  destruct (Hin 1 "nemisis" eq_refl) as (Hs & Ht & _).
  split; [exact Hs|]. split; [exact Ht|].
  apply Hout. rewrite list_elem_of_In. simpl. intuition discriminate.
Defined.
